(** * The Romulus terms client of the Juju GUI (jujulib/terms.js)

    A shallow embedding of [jujulib.terms] and of its one method
    [showTerms], together with the properties of the request path, of the
    response mapping and of the callback discipline; and of the
    documentation linter of the repository (lint-yuidoc), with the
    properties of its line matching, of its search for documentation and
    of its listing.

    Layout:
    - [Js]: the fragment of the JavaScript runtime the client relies on
      (values, truthiness, string conversion with the printing of
      numbers, property reads, dates);
    - [Run]: the execution monad, a store of objects and a trace of
      observable calls, with exceptions;
    - [Jujulib]: [terms], the response handler and [showTerms], taken from
      the source; [_makeRequest], which terms.js calls but does not define;
    - [Py], [LintYuidoc]: the fragment of the Python runtime the linter
      relies on, and the functions of the linter, down to the reading of
      a file;
    - the theorems. *)

From Stdlib Require Import ZArith String Ascii List Sorted Lia.
From stdpp Require Import base option list gmap strings pretty.

Set Warnings "-register-all".
#[local] Open Scope string_scope.

(* ===================================================================== *)
(** ** JavaScript values *)
(* ===================================================================== *)

Module Js.

(** Numbers.  A revision and a time value are integral; [Int z] is the
    double nearest to the integer [z]: [z] itself up to 2^53 in
    magnitude, the 53 leading bits of [z] rounded to even beyond that,
    and an infinity beyond the largest double.  Doubles with a fractional
    part are not represented. *)
Inductive JsNumber :=
| NaN
| Infinity (negative : bool)
| NegZero
| Int (z : Z).

(** Values that reach the client: the primitives, and the plain objects
    and arrays a decoded JSON text is made of. *)
Inductive JsValue :=
| VUndefined
| VNull
| VBool (b : bool)
| VNumber (n : JsNumber)
| VString (s : string)
| VObject (props : gmap string JsValue)
| VArray (elems : list JsValue).

Inductive JsError :=
| TypeError (message : string).

(** The result of evaluating an expression: a value, or an exception. *)
Inductive Completion (A : Type) :=
| Normal (a : A)
| Throw (e : JsError).
Arguments Normal {A} a.
Arguments Throw {A} e.

(** [ToBoolean]: the truthiness used by [if (v)], [!v] and [||]. *)
Definition ToBoolean (v : JsValue) : bool :=
  match v with
  | VUndefined | VNull => false
  | VBool b => b
  | VNumber NaN | VNumber NegZero => false
  | VNumber (Int z) => negb (z =? 0)%Z
  | VNumber (Infinity _) => true
  | VString s => negb (String.eqb s "")
  | VObject _ | VArray _ => true
  end.

(** [v === 0]: strict equality with the number zero (of either sign). *)
Definition strict_eq_zero (v : JsValue) : bool :=
  match v with
  | VNumber (Int z) => (z =? 0)%Z
  | VNumber NegZero => true
  | _ => false
  end.

(** [v === null]. *)
Definition strict_eq_null (v : JsValue) : bool :=
  match v with
  | VNull => true
  | _ => false
  end.

(** [Number.MAX_SAFE_INTEGER]: up to it every integer is a double, and
    the only integer that rounds to that double. *)
Definition MAX_SAFE_INTEGER : Z := 2 ^ 53 - 1.

(** The double nearest to the integer [a], for [a] above 2^53: [a] is cut
    to its 53 leading bits, rounded up when more than half a unit of the
    last of them is cut off, and to the even significand at exactly
    half.  There is none from 2^1024 on. *)
Definition nearest_double (a : Z) : option Z :=
  let excess := (Z.log2 a - 52)%Z in
  if (excess <=? 0)%Z then Some a
  else
    let unit := (2 ^ excess)%Z in
    let q := (a / unit)%Z in
    let r := (a mod unit)%Z in
    let q' := if (unit <? 2 * r)%Z || ((unit =? 2 * r)%Z && Z.odd q)
              then (q + 1)%Z else q in
    if (q' * unit <? 2 ^ 1024)%Z then Some (q' * unit)%Z else None.

(** The integer [y] is read back as the double [x], for [x] from 2^53 on:
    [y] is no farther from [x] than half the way to the next double on
    either side, the half-way points counting for an even significand
    only.  Below a power of two the doubles are twice as dense. *)
Definition rounds_to (x y : Z) : bool :=
  let e := (Z.log2 x - 52)%Z in
  let m := (x / 2 ^ e)%Z in
  let up := (2 ^ e)%Z in
  let down := (if (m =? 2 ^ 52)%Z then 2 ^ (e - 1) else 2 ^ e)%Z in
  if Z.even m
  then ((2 * x - down <=? 2 * y) && (2 * y <=? 2 * x + up))%Z
  else ((2 * x - down <? 2 * y) && (2 * y <? 2 * x + up))%Z.

(** The digits of a double [x] from 2^53 on, as [Number::toString]
    chooses them: [(s, j)] with [s * 10^j] read back as [x] and as few
    digits in [s] as can be, that is, the largest [j] there is; of two
    such [s] the one nearer to [x], and the even one when they are as
    near.  The search goes from the [j] given downwards. *)
Fixpoint shortest_digits (j : nat) (x : Z) : Z * nat :=
  let unit := (10 ^ Z.of_nat j)%Z in
  let below := (x / unit)%Z in
  let above := (below + 1)%Z in
  let nearer :=
    match (x - below * unit ?= above * unit - x)%Z with
    | Lt => below
    | Gt => above
    | Eq => if Z.even below then below else above
    end in
  let found :=
    match rounds_to x (below * unit), rounds_to x (above * unit) with
    | true, true => Some nearer
    | true, false => Some below
    | false, true => Some above
    | false, false => None
    end in
  match found, j with
  | Some s, _ => (s, j)
  | None, O => (x, O)
  | None, S j' => shortest_digits j' x
  end.

Fixpoint zeros (n : nat) : string :=
  match n with
  | O => EmptyString
  | S n' => String "0"%char (zeros n')
  end.

(** [Number::toString] for a double [x] from 2^53 on, all of which are
    integers: the digits followed by zeros up to 21 places, and
    exponent notation beyond. *)
Definition print_double (x : Z) : string :=
  let (s, j) := shortest_digits (String.length (pretty x)) x in
  let digits := pretty s in
  let n := (String.length digits + j)%nat in
  if (n <=? 21)%nat then digits ++ zeros j
  else
    match digits with
    | EmptyString => EmptyString
    | String d EmptyString => String d ("e+" ++ pretty (n - 1)%nat)
    | String d rest => String d ("." ++ rest ++ "e+" ++ pretty (n - 1)%nat)
    end.

(** [Number::toString], radix 10.  A safe integer prints as its decimal
    digits. *)
Definition Number_toString (n : JsNumber) : string :=
  match n with
  | NaN => "NaN"
  | Infinity false => "Infinity"
  | Infinity true => "-Infinity"
  | NegZero => "0"
  | Int z =>
      if (Z.abs z <=? MAX_SAFE_INTEGER)%Z then pretty z
      else
        (if (z <? 0)%Z then "-" else "")
        ++ match nearest_double (Z.abs z) with
           | Some x => print_double x
           | None => "Infinity"
           end
  end.

(** [Array.prototype.join]: the pieces separated by [sep]. *)
Fixpoint join (sep : string) (pieces : list string) : string :=
  match pieces with
  | [] => ""
  | [p] => p
  | p :: rest => p ++ sep ++ join sep rest
  end.

(** [ToString], as applied by string concatenation and by [Date.parse].
    A plain object prints as [[object Object]] through
    [Object.prototype.toString]; an own data property named [toString]
    shadows that method with something that cannot be called, and the
    conversion throws.  An array prints its elements joined by commas,
    [null] and [undefined] elements as the empty string. *)
Fixpoint ToString (v : JsValue) : Completion string :=
  match v with
  | VUndefined => Normal "undefined"
  | VNull => Normal "null"
  | VBool true => Normal "true"
  | VBool false => Normal "false"
  | VNumber n => Normal (Number_toString n)
  | VString s => Normal s
  | VObject props =>
      match props !! "toString" with
      | Some _ => Throw (TypeError "Cannot convert object to primitive value")
      | None => Normal "[object Object]"
      end
  | VArray elems =>
      let fix pieces (l : list JsValue) : Completion (list string) :=
        match l with
        | [] => Normal []
        | e :: l' =>
            match (match e with
                   | VUndefined | VNull => Normal ""
                   | _ => ToString e
                   end) with
            | Throw err => Throw err
            | Normal p =>
                match pieces l' with
                | Throw err => Throw err
                | Normal ps => Normal (p :: ps)
                end
            end
        end in
      match pieces elems with
      | Throw err => Throw err
      | Normal ps => Normal (join "," ps)
      end
  end.

(** Property keys: an identifier-like name ([o.name], [o['created-on']])
    or an array index ([o[0]]). *)
Inductive PropertyKey :=
| Named (name : string)
| Index (i : nat).

Definition key_string (k : PropertyKey) : string :=
  match k with
  | Named s => s
  | Index i => pretty i
  end.

(** [v[k]] for the data properties of [v].  Reading a property of [null]
    or [undefined] throws; a property that is not there reads as
    [undefined].  Inherited methods are not data and are not modelled;
    none of the keys the client reads names one. *)
Definition GetV (v : JsValue) (k : PropertyKey) : Completion JsValue :=
  match v with
  | VUndefined =>
      Throw (TypeError ("Cannot read property '" ++ key_string k ++ "' of undefined"))
  | VNull =>
      Throw (TypeError ("Cannot read property '" ++ key_string k ++ "' of null"))
  | VBool _ | VNumber _ => Normal VUndefined
  | VString s =>
      match k with
      | Named "length" => Normal (VNumber (Int (Z.of_nat (String.length s))))
      | Named _ => Normal VUndefined
      | Index i =>
          match String.get i s with
          | Some c => Normal (VString (String c EmptyString))
          | None => Normal VUndefined
          end
      end
  | VObject props => Normal (default VUndefined (props !! key_string k))
  | VArray elems =>
      match k with
      | Named "length" => Normal (VNumber (Int (Z.of_nat (length elems))))
      | Named _ => Normal VUndefined
      | Index i => Normal (default VUndefined (elems !! i))
      end
  end.

(** Dates.  A [Date] object holds a time value: integral milliseconds
    since the epoch, or [NaN] for an invalid date. *)
Record JsDate := mkDate { time_value : JsNumber }.

Definition max_time : Z := 8640000000000000.

(** [TimeClip]: anything not finite or beyond the representable range is
    [NaN]; negative zero is normalised. *)
Definition TimeClip (t : JsNumber) : JsNumber :=
  match t with
  | NaN | Infinity _ => NaN
  | NegZero => Int 0
  | Int z => if (Z.abs z <=? max_time)%Z then Int z else NaN
  end.

(** [new Date(milliseconds)] for a number argument. *)
Definition new_Date (milliseconds : JsNumber) : JsDate :=
  mkDate (TimeClip milliseconds).

Definition is_invalid_date (d : JsDate) : Prop := time_value d = NaN.

End Js.
Export Js.

(* ===================================================================== *)
(** ** The execution monad *)
(* ===================================================================== *)

Abbreviation loc := positive.

(** The client object built by [new jujulib.terms(url, bakery)]: its two
    fields, [this.url] and [this.bakery] (a reference to the bakery). *)
Module TermsClient.
Record t := make { url : string; bakery : loc }.
End TermsClient.

(** The object [showTerms] hands to the caller's callback. *)
Module TermsData.
Record t := make {
  name : JsValue;
  title : JsValue;
  revision : JsValue;
  content : JsValue;
  createdAt : JsDate
}.
End TermsData.

Module Run.

(** The calls that leave the client: a request handed to a bakery, and an
    invocation of the caller's callback, whose second argument is [null]
    ([None]) or a terms object. *)
Inductive Event :=
| SendGetRequest (bakery : loc) (path : string)
| CallbackCalled (error : JsValue) (data : option TermsData.t).

(** The store: the client objects and the bakery objects (with whatever
    data properties their owner keeps in them), and the calls made so
    far, oldest first. *)
Record World := mkWorld {
  clients : gmap loc TermsClient.t;
  bakeries : gmap loc (gmap string JsValue);
  trace : list Event
}.

Definition Exec (A : Type) : Type := World -> Completion A * World.

#[export] Instance Exec_ret : MRet Exec :=
  fun A (a : A) (w : World) => (Normal a, w).

#[export] Instance Exec_bind : MBind Exec :=
  fun A B (k : A -> Exec B) (m : Exec A) (w : World) =>
    match m w with
    | (Normal a, w') => k a w'
    | (Throw e, w') => (Throw e, w')
    end.

(** Evaluation of a pure expression that may throw. *)
Definition lift {A : Type} (c : Completion A) : Exec A :=
  fun w => (c, w).

Definition emit (e : Event) : Exec unit :=
  fun w => (Normal tt, mkWorld (clients w) (bakeries w) (trace w ++ [e])).

Definition get_client (this : loc) : Exec TermsClient.t :=
  fun w =>
    match clients w !! this with
    | Some c => (Normal c, w)
    | None => (Throw (TypeError "not a terms client"), w)
    end.

Definition put_client (this : loc) (c : TermsClient.t) : Exec unit :=
  fun w => (Normal tt, mkWorld (<[this := c]> (clients w)) (bakeries w) (trace w)).

(** The world [w] after the calls [evs] were made and nothing else
    changed. *)
Definition extend (w : World) (evs : list Event) : World :=
  mkWorld (clients w) (bakeries w) (trace w ++ evs).

(** What a computation did, apart from its result. *)
Definition world_after {A : Type} (m : Exec A) (w : World) : World := snd (m w).
Definition result_of {A : Type} (m : Exec A) (w : World) : Completion A := fst (m w).

(** The events a computation added to the trace of [w]. *)
Definition events_of {A : Type} (m : Exec A) (w : World) : list Event :=
  drop (length (trace w)) (trace (world_after m w)).

Definition callbacks (evs : list Event) : list (JsValue * option TermsData.t) :=
  omap (fun e => match e with
                 | CallbackCalled error data => Some (error, data)
                 | SendGetRequest _ _ => None
                 end) evs.

Definition invocation_event (invocation : JsValue * option TermsData.t) : Event :=
  CallbackCalled invocation.1 invocation.2.

(** A computation that neither reads nor writes the store: all it does
    is invoke the callback, in the same way in every world. *)
Definition only_callbacks {A : Type} (m : Exec A) : Prop :=
  exists (res : Completion A) (invocations : list (JsValue * option TermsData.t)),
    forall w, m w = (res, extend w (invocation_event <$> invocations)).

Definition requests (evs : list Event) : list (loc * string) :=
  omap (fun e => match e with
                 | SendGetRequest b path => Some (b, path)
                 | CallbackCalled _ _ => None
                 end) evs.

End Run.
Export Run.

(* ===================================================================== *)
(** ** jujulib/terms.js *)
(* ===================================================================== *)

Module Jujulib.

Definition termsAPIVersion : string := "v1".

Definition is_slash (c : ascii) : bool := Ascii.eqb c "/"%char.

(** [s.replace(/\/?$/, replacement)].  The pattern is tried at each
    position from the left: an optional slash, then the end of the
    input.  At a slash that is the last character the pattern matches
    that slash; at any other character it matches nothing and the search
    moves on; at the end of the input it matches the empty string. *)
Fixpoint replace_optional_slash_at_end (s replacement : string) : string :=
  match s with
  | EmptyString => replacement
  | String c rest =>
      match rest with
      | EmptyString =>
          if is_slash c then replacement
          else String c (replace_optional_slash_at_end rest replacement)
      | String _ _ => String c (replace_optional_slash_at_end rest replacement)
      end
  end.

(** [function terms(url, bakery)], run by [new] on the fresh object
    [this]: stores the versioned URL and the bakery. *)
Definition terms (this : loc) (url : string) (bakery : loc) : Exec unit :=
  put_client this
    (TermsClient.make (replace_optional_slash_at_end url "/" ++ termsAPIVersion)
                      bakery).

(** A JavaScript function of two arguments [(error, data)], as the
    caller passes to [showTerms]. *)
Definition Callback : Type := JsValue -> option TermsData.t -> Exec unit.

(** The function [_makeRequest] expects: [(error, response)]. *)
Definition Handler : Type := JsValue -> JsValue -> Exec unit.

Section showTerms.

(** [Date.parse] of the runtime: the time value a string denotes, or
    [NaN] when it denotes none. *)
Variable Date_parse : string -> JsNumber.

(** [jujulib._makeRequest(bakery, path, method, params, callback)],
    which terms.js calls and does not define. *)
Context {R : Type}.
Variable _makeRequest : loc -> string -> string -> JsValue -> Handler -> Exec R.

(** [var handler = function(error, response) {...}] *)
Definition handler (callback : Callback) : Handler :=
  fun error response =>
    if negb (strict_eq_null error) then
      callback error None
    else
      len ← lift (GetV response (Named "length"));
      if negb (ToBoolean len) then
        callback VNull None
      else
        terms ← lift (GetV response (Index 0));
        created_on ← lift (GetV terms (Named "created-on"));
        text ← lift (ToString created_on);
        let milliseconds := Date_parse text in
        name ← lift (GetV terms (Named "name"));
        title ← lift (GetV terms (Named "title"));
        revision ← lift (GetV terms (Named "revision"));
        content ← lift (GetV terms (Named "content"));
        callback VNull
          (Some (TermsData.make name title revision content
                                (new_Date milliseconds))).

(** [showTerms: function(name, revision, callback) {...}] *)
Definition showTerms (this : loc) (name : string) (revision : JsValue)
           (callback : Callback) : Exec R :=
  let handler := handler callback in
  c ← get_client this;
  let url := (TermsClient.url c ++ "/terms/") ++ name in
  url ← (if strict_eq_zero revision || ToBoolean revision then
           text ← lift (ToString revision);
           mret (url ++ ("?revision=" ++ text))
         else mret url);
  c' ← get_client this;
  _makeRequest (TermsClient.bakery c') url "GET" VNull handler.

End showTerms.

End Jujulib.
Export Jujulib.

(* ===================================================================== *)
(** ** The request helper and the bakery *)
(* ===================================================================== *)

Module Transport.

(** The two continuations a bakery receives with a request, each taking
    the decoded body of the reply. *)
Record Pending := mkPending {
  success : JsValue -> Exec unit;
  failure : JsValue -> Exec unit
}.

(** Modelled from the spec: [jujulib._makeRequest] is defined in
    jujulib's index file, not in terms.js.  By the spec the GET is
    delegated to the injected transport
    ([sendGetRequest(path, onSuccess, onFailure)]) with two
    continuations: on success the transport yields the decoded JSON body
    and no error is reported; on failure it yields an error payload,
    whose [Message] field (or else its [message] attribute) is reported
    as the error.  The handler gets the decoded body as its second
    argument in both cases; it does not read it when there is an
    error. *)
Definition _makeRequest (bakery : loc) (path method : string) (params : JsValue)
           (callback : Handler) : Exec Pending :=
  let success := fun decoded => callback VNull decoded in
  let failure := fun decoded =>
    upper ← lift (GetV decoded (Named "Message"));
    message ← (match upper with
               | VUndefined => lift (GetV decoded (Named "message"))
               | _ => mret upper
               end);
    callback message decoded in
  emit (SendGetRequest bakery path);;
  mret (mkPending success failure).

(** What a bakery does with a request: each element is one invocation of
    a continuation, in order.  A bakery that keeps its contract invokes
    exactly one of them exactly once. *)
Inductive Reply :=
| Succeeds (decoded : JsValue)
| Fails (decoded : JsValue).

Definition invoke (p : Pending) (r : Reply) : Exec unit :=
  match r with
  | Succeeds decoded => success p decoded
  | Fails decoded => failure p decoded
  end.

Fixpoint invoke_all (p : Pending) (rs : list Reply) : Exec unit :=
  match rs with
  | [] => mret tt
  | r :: rs' => invoke p r;; invoke_all p rs'
  end.

(** A callback that does nothing but be called. *)
Definition observer : Callback :=
  fun error data => emit (CallbackCalled error data).

Section call.
Variable Date_parse : string -> JsNumber.

(** One [showTerms] call on [this] with an observing callback, and the
    bakery's reaction to the request. *)
Definition call (this : loc) (name : string) (revision : JsValue)
           (reaction : list Reply) : Exec unit :=
  pending ← showTerms Date_parse _makeRequest this name revision observer;
  invoke_all pending reaction.
End call.

End Transport.
Export Transport.

(* ===================================================================== *)
(** ** An instance of [Date.parse] *)
(* ===================================================================== *)

(** The simplified ISO format every runtime accepts, in UTC and without
    fractional seconds: [YYYY-MM-DDTHH:mm:ssZ].  Anything else is [NaN]. *)
Module IsoDate.

Definition digit (c : ascii) : option Z :=
  let n := Z.of_nat (nat_of_ascii c) in
  if ((48 <=? n) && (n <=? 57))%Z then Some (n - 48)%Z else None.

Fixpoint digits (s : string) (acc : Z) : option Z :=
  match s with
  | EmptyString => Some acc
  | String c rest =>
      match digit c with
      | Some d => digits rest (10 * acc + d)%Z
      | None => None
      end
  end.

Definition field (s : string) (start len : nat) : option Z :=
  digits (substring start len s) 0%Z.

Definition char_is (s : string) (i : nat) (c : ascii) : bool :=
  match String.get i s with
  | Some c' => Ascii.eqb c c'
  | None => false
  end.

(** Days between the epoch and a date of the proleptic Gregorian
    calendar. *)
Definition days_from_civil (y m d : Z) : Z :=
  let y' := (if m <=? 2 then y - 1 else y)%Z in
  let era := (y' / 400)%Z in
  let yoe := (y' - era * 400)%Z in
  let doy := ((153 * (if m >? 2 then m - 3 else m + 9) + 2) / 5 + d - 1)%Z in
  let doe := (yoe * 365 + yoe / 4 - yoe / 100 + doy)%Z in
  (era * 146097 + doe - 719468)%Z.

Definition parse (s : string) : JsNumber :=
  if negb (Nat.eqb (String.length s) 20
           && char_is s 4 "-" && char_is s 7 "-" && char_is s 10 "T"
           && char_is s 13 ":" && char_is s 16 ":" && char_is s 19 "Z")
  then NaN
  else
    match field s 0 4, field s 5 2, field s 8 2,
          field s 11 2, field s 14 2, field s 17 2 with
    | Some y, Some m, Some d, Some hh, Some mm, Some ss =>
        if ((1 <=? m) && (m <=? 12) && (1 <=? d) && (d <=? 31)
            && (hh <? 24) && (mm <? 60) && (ss <? 60))%Z
        then Int ((((days_from_civil y m d * 24 + hh) * 60 + mm) * 60 + ss) * 1000)%Z
        else NaN
    | _, _, _, _, _, _ => NaN
    end.

End IsoDate.

(* ===================================================================== *)
(** ** Fixtures of the test-suite of the client *)
(* ===================================================================== *)

Module Tests.

Definition empty_world : World := mkWorld ∅ ∅ [].

Definition this : loc := 1%positive.
Definition bakery : loc := 2%positive.

(** [new window.jujulib.terms('http://1.2.3.4/', bakery)] *)
Definition world : World := world_after (terms this "http://1.2.3.4/" bakery) empty_world.

(** [{name: 'canonical', title: 'canonical terms', revision: 42,
     'created-on': '2016-06-09T22:07:24Z', content: 'Terms and conditions'}] *)
Definition canonical : gmap string JsValue :=
  list_to_map [("name", VString "canonical");
               ("title", VString "canonical terms");
               ("revision", VNumber (Int 42));
               ("created-on", VString "2016-06-09T22:07:24Z");
               ("content", VString "Terms and conditions")].

(** The most recent revision, in the second test. *)
Definition recent : gmap string JsValue :=
  list_to_map [("name", VString "canonical");
               ("title", VString "canonical recent terms");
               ("revision", VNumber (Int 47));
               ("created-on", VString "2016-06-09T22:07:24Z");
               ("content", VString "Terms and conditions")].

(** [{Message: 'bad wolf'}] *)
Definition bad_wolf : gmap string JsValue :=
  list_to_map [("Message", VString "bad wolf")].

(** A term document whose timestamp is not one. *)
Definition undated : gmap string JsValue :=
  <["created-on" := VString "last Thursday"]> canonical.

(** The terms object the first test expects. *)
Definition expected : TermsData.t :=
  TermsData.make (VString "canonical") (VString "canonical terms")
                 (VNumber (Int 42)) (VString "Terms and conditions")
                 (new_Date (Int 1465510044000)).

End Tests.

(* ===================================================================== *)
(** ** The specification's vocabulary *)
(* ===================================================================== *)

Module Spec.

Fixpoint last_char (s : string) : option ascii :=
  match s with
  | EmptyString => None
  | String c rest =>
      match rest with
      | EmptyString => Some c
      | String _ _ => last_char rest
      end
  end.

(** The base URL ends in a path separator. *)
Definition ends_with_separator (s : string) : bool :=
  match last_char s with
  | Some c => is_slash c
  | None => false
  end.

(** The base URL as given, less the trailing separator if it has one. *)
Fixpoint without_trailing_separator (s : string) : string :=
  match s with
  | EmptyString => EmptyString
  | String c rest =>
      match rest with
      | EmptyString => if is_slash c then EmptyString else s
      | String _ _ => String c (without_trailing_separator rest)
      end
  end.

(** Every character of [s] is a path separator. *)
Fixpoint all_separators (s : string) : bool :=
  match s with
  | EmptyString => true
  | String c rest => is_slash c && all_separators rest
  end.

(** The number of path separators [s] ends in. *)
Fixpoint trailing_separators (s : string) : nat :=
  match s with
  | EmptyString => 0
  | String c rest =>
      if is_slash c && all_separators rest then S (String.length rest)
      else trailing_separators rest
  end.

(** [s] without the path separators it ends in, however many. *)
Fixpoint without_trailing_separators (s : string) : string :=
  match s with
  | EmptyString => EmptyString
  | String c rest =>
      if is_slash c && all_separators rest then EmptyString
      else String c (without_trailing_separators rest)
  end.

(** What the specification asks of the URL stored for [base]: the base,
    whether or not it ends in separators, then exactly one separator,
    then the version segment. *)
Definition one_separator_before_version (base stored : string) : Prop :=
  stored = without_trailing_separators base ++ "/" ++ "v1".

(** "Normalize url by appending a path separator if one is not already
    the final character, then append the fixed API version segment." *)
Definition normalized (base : string) : string :=
  (if ends_with_separator base then base else base ++ "/") ++ "v1".

(** A revision was explicitly supplied: any number (zero included), a
    non-empty string, [true], an object.  Nothing was supplied with
    [null] or [undefined], nor with the other values that stand for
    "none": [NaN], the empty string, [false]. *)
Definition revision_supplied (revision : JsValue) : bool :=
  match revision with
  | VUndefined | VNull => false
  | VBool b => b
  | VNumber NaN => false
  | VNumber _ => true
  | VString EmptyString => false
  | VString (String _ _) => true
  | VObject _ | VArray _ => true
  end.

(** The path of the request for [name] at [revision], whose text is
    [text], below the endpoint [endpoint]. *)
Definition terms_path (endpoint name : string) (revision : JsValue) (text : string) : string :=
  endpoint ++ "/terms/" ++ name ++
  (if revision_supplied revision then "?revision=" ++ text else "").

(** A term document of the wire format, as far as the client depends on
    it: an object whose [created-on] is a string. *)
Definition is_term_document (v : JsValue) : bool :=
  match v with
  | VObject props =>
      match props !! "created-on" with
      | Some (VString _) => true
      | _ => false
      end
  | _ => false
  end.

(** The bakery's side of the contract: a success carries an array of
    term documents, a failure an object with a [Message] string. *)
Definition well_formed (r : Reply) : bool :=
  match r with
  | Succeeds (VArray []) => true
  | Succeeds (VArray (first :: _)) => is_term_document first
  | Succeeds _ => false
  | Fails (VObject props) =>
      match props !! "Message" with
      | Some (VString _) => true
      | _ => false
      end
  | Fails _ => false
  end.

(** The three outcomes of a call. *)
Inductive Path :=
| FailurePath
| EmptyResponsePath
| NonEmptyResponsePath.

(** The outcome a reply calls for. *)
Definition path_of_reply (r : Reply) : Path :=
  match r with
  | Fails _ => FailurePath
  | Succeeds (VArray (_ :: _)) => NonEmptyResponsePath
  | Succeeds _ => EmptyResponsePath
  end.

(** The outcome a callback invocation reports: an error and no data, no
    error and no data, or no error and a terms object. *)
Definition path_of_callback (invocation : JsValue * option TermsData.t) : option Path :=
  match invocation with
  | (VNull, None) => Some EmptyResponsePath
  | (VNull, Some _) => Some NonEmptyResponsePath
  | (_, None) => Some FailurePath
  | (_, Some _) => None
  end.

(** What the specification asks of the events of a call: the callback
    is invoked exactly once. *)
Definition called_back_once (evs : list Event) : Prop :=
  exists invocation : JsValue * option TermsData.t, callbacks evs = [invocation].

(** The field [k] of a term document. *)
Definition field (props : gmap string JsValue) (k : string) : JsValue :=
  default VUndefined (props !! k).

(** The terms object for a term document whose [created-on] denotes the
    time value [milliseconds]. *)
Definition record (props : gmap string JsValue) (milliseconds : JsNumber) : TermsData.t :=
  TermsData.make (field props "name") (field props "title")
                 (field props "revision") (field props "content")
                 (new_Date milliseconds).

End Spec.
Export Spec.

(* ===================================================================== *)
(** ** Reading a value that is not a term document *)
(* ===================================================================== *)

Module Lenient.

(** [v.k] for a [v] that is known not to be [null] or [undefined]. *)
Definition property (v : JsValue) (k : string) : JsValue :=
  match GetV v (Named k) with
  | Normal x => x
  | Throw _ => VUndefined
  end.

(** [v] is [null] or [undefined]: a property read on it throws. *)
Definition is_nullish (v : JsValue) : bool :=
  match v with
  | VUndefined | VNull => true
  | _ => false
  end.

End Lenient.
Export Lenient.

(* ===================================================================== *)
(** ** The documentation linter (lint-yuidoc) *)
(* ===================================================================== *)

(** The fragment of the Python 2 runtime the linter uses.  A [str] is a
    byte string. *)
Module Py.

Inductive PyError :=
| IndexError
| UnboundLocalError (variable : string)
| AttributeError
| RuntimeError (message : string)
| IOError (file_name : string).

Inductive Outcome (A : Type) :=
| Returns (a : A)
| Raises (e : PyError).
Arguments Returns {A} a.
Arguments Raises {A} e.

(** The characters of [string.whitespace], which are those [str.strip]
    removes: tab, newline, vertical tab, form feed, return, space. *)
Definition is_whitespace (c : ascii) : bool :=
  match c with
  | "009" | "010" | "011" | "012" | "013" | " " => true
  | _ => false
  end%char.

Fixpoint lstrip (s : string) : string :=
  match s with
  | EmptyString => EmptyString
  | String c rest => if is_whitespace c then lstrip rest else s
  end.

Fixpoint rstrip (s : string) : string :=
  match s with
  | EmptyString => EmptyString
  | String c rest =>
      match rstrip rest with
      | EmptyString => if is_whitespace c then EmptyString else String c EmptyString
      | String _ _ as kept => String c kept
      end
  end.

(** [s.strip()] *)
Definition strip (s : string) : string := rstrip (lstrip s).

(** [s.startswith(prefix)] *)
Definition startswith (s prefix : string) : bool := String.prefix prefix s.

(** [s.endswith(suffix)] *)
Definition endswith (s suffix : string) : bool :=
  (String.length suffix <=? String.length s)%nat
  && String.eqb (substring (String.length s - String.length suffix)
                           (String.length suffix) s) suffix.

(** [c in s] for a character [c]. *)
Fixpoint contains (s : string) (c : ascii) : bool :=
  match s with
  | EmptyString => false
  | String c' rest => Ascii.eqb c c' || contains rest c
  end.

(** [s[-2]], for a string of more than one character. *)
Fixpoint second_to_last (s : string) : option ascii :=
  match s with
  | EmptyString => None
  | String c rest =>
      match rest with
      | EmptyString => None
      | String _ EmptyString => Some c
      | String _ (String _ _) => second_to_last rest
      end
  end.

(** [l[i:j]] for indices within the list. *)
Definition slice {A : Type} (l : list A) (i j : nat) : list A :=
  take (j - i) (drop i l).

(** The longest prefix of [s] whose characters all satisfy [p], and what
    follows it: how a greedy [[class]+] or [[class]*] matches when the
    next item of the pattern cannot match a character of the class. *)
Fixpoint span (p : ascii -> bool) (s : string) : string * string :=
  match s with
  | EmptyString => (EmptyString, EmptyString)
  | String c rest =>
      if p c then let (taken, left) := span p rest in (String c taken, left)
      else (EmptyString, s)
  end.

(** What follows [prefix] in [s], when [s] starts with it. *)
Fixpoint after (prefix s : string) : option string :=
  match prefix with
  | EmptyString => Some s
  | String c prefix' =>
      match s with
      | EmptyString => None
      | String c' s' => if Ascii.eqb c c' then after prefix' s' else None
      end
  end.

(** [\w] and [\d] of the [re] module, without flags. *)
Definition is_word (c : ascii) : bool :=
  let n := nat_of_ascii c in
  ((48 <=? n) && (n <=? 57) || (65 <=? n) && (n <=? 90)
   || (97 <=? n) && (n <=? 122) || (n =? 95))%nat.

Definition is_digit (c : ascii) : bool :=
  let n := nat_of_ascii c in ((48 <=? n) && (n <=? 57))%nat.

Definition is_space (c : ascii) : bool := Ascii.eqb c " "%char.

(** ['%d' % n] for a natural number. *)
Definition format_d (n : nat) : string := pretty n.

Definition dquote : string := String "034"%char EmptyString.

End Py.

Module LintYuidoc.
Import Py.

(** The pattern of [function_regex] is
    [^ *(?:(\w+) *[:=] *function *|function +(\w+)) *\(].  Each
    repetition in it is followed by something that cannot match a
    character it repeats, so it takes all it can; the second alternative
    is tried when the first, with the closing [ *\(], does not match. *)

(** The closing [ *\(]. *)
Definition opens_parenthesis (s : string) : bool :=
  match snd (span is_space s) with
  | String "("%char _ => true
  | _ => false
  end.

(** The first alternative, [(\w+) *[:=] *function *], and its group. *)
Definition assigned_function (s : string) : option string :=
  let (name, s1) := span is_word s in
  match name with
  | EmptyString => None
  | String _ _ =>
      match snd (span is_space s1) with
      | String c s2 =>
          if Ascii.eqb c ":"%char || Ascii.eqb c "="%char then
            match after "function" (snd (span is_space s2)) with
            | Some s3 => if opens_parenthesis s3 then Some name else None
            | None => None
            end
          else None
      | EmptyString => None
      end
  end.

(** The second alternative, [function +(\w+)], and its group. *)
Definition declared_function (s : string) : option string :=
  match after "function" s with
  | Some s1 =>
      let (spaces, s2) := span is_space s1 in
      match spaces with
      | EmptyString => None
      | String _ _ =>
          let (name, s3) := span is_word s2 in
          match name with
          | EmptyString => None
          | String _ _ => if opens_parenthesis s3 then Some name else None
          end
      end
  | None => None
  end.

(** [function_regex.match(line)] and, when it matches,
    [filter(bool, match.groups())[0]]. *)
Definition function_regex_match (line : string) : option string :=
  let s := snd (span is_space line) in
  match assigned_function s with
  | Some name => Some name
  | None => declared_function s
  end.

(** [find_functions(source)]: the pairs the generator yields, in order.
    [line_number] is the index of the first line of [source]. *)
Fixpoint find_functions_from (line_number : nat) (source : list string)
  : list (string * nat) :=
  match source with
  | [] => []
  | line :: rest =>
      match function_regex_match line with
      | Some name => (name, line_number) :: find_functions_from (S line_number) rest
      | None => find_functions_from (S line_number) rest
      end
  end.

Definition find_functions (source : list string) : list (string * nat) :=
  find_functions_from 0 source.

(** The loop of [find_docs]: [count] lines are still to be visited, the
    next one being [source[boundary + count]].  [ending_line_number] is
    [None] until it is assigned.  Both [()] and the slice are returned as
    a list. *)
Fixpoint find_docs_loop (count boundary : nat) (source : list string)
         (in_comment : bool) (ending_line_number : option nat)
  : Outcome (list string) :=
  match count with
  | O => Returns []
  | S count' =>
      let current_line_number := boundary + count in
      match source !! current_line_number with
      | None => Raises IndexError
      | Some line =>
          let source_line := strip line in
          let ends := endswith source_line "*/" in
          let ending_line_number :=
            if ends then Some current_line_number else ending_line_number in
          let in_comment := if ends then true else in_comment in
          if startswith source_line "/**" then
            match ending_line_number with
            | Some ending => Returns (slice source current_line_number (ending + 1))
            | None => Raises (UnboundLocalError "ending_line_number")
            end
          else
            let in_comment :=
              if startswith source_line "/*" then false else in_comment in
            if negb in_comment
               && (contains source_line "{"%char || contains source_line "}"%char)
            then Returns []
            else find_docs_loop count' boundary source in_comment ending_line_number
      end
  end.

(** [find_docs(line_number, boundary, source)]; the loop runs over
    [range(line_number-1, boundary, -1)]. *)
Definition find_docs (line_number boundary : nat) (source : list string)
  : Outcome (list string) :=
  find_docs_loop (line_number - 1 - boundary) boundary source false None.

Definition opening_message : string :=
  "extra characters after the opening comment; just use " ++ dquote ++ "/**" ++ dquote.
Definition whitespace_message : string :=
  "unnecessary whitespace at the end of the line".
Definition closing_message : string :=
  "extra characters before the closing comment; just use " ++ dquote ++ "*/" ++ dquote.

(** [found(message)], on the list [lint] of the enclosing call. *)
Definition found (code_location message : string) (lint : list string) : list string :=
  lint ++ [code_location ++ " " ++ message].

(** [len(line) > 1 and line[-2] in string.whitespace] *)
Definition trailing_whitespace (line : string) : bool :=
  (1 <? String.length line)%nat
  && match second_to_last line with
     | Some c => is_whitespace c
     | None => false
     end.

(** [lint_comment(lines, code_location)].  [initial_indent] is computed
    and not used. *)
Definition lint_comment (lines : list string) (code_location : string) : list string :=
  match lines with
  | [] => []
  | first :: _ =>
      let lint := [] in
      let lint :=
        if negb (String.eqb (strip first) "/**")
        then found code_location opening_message lint else lint in
      let lint :=
        foldl (fun lint line =>
                 if trailing_whitespace line
                 then found code_location whitespace_message lint else lint)
              lint lines in
      let initial_indent :=
        String.length (fst (span (fun c => negb (Ascii.eqb c "/"%char)) first)) in
      let lint :=
        if negb (String.eqb (strip (List.last lines first)) "*/")
        then found code_location closing_message lint else lint in
      lint
  end.

(** The [code_location] of [check_file]: the file name, a colon, the line
    number plus one in decimal, a space and the function name in double
    quotes. *)
Definition code_location (file_name : string) (line_number : nat) (function_name : string)
  : string :=
  file_name ++ ":" ++ format_d (line_number + 1) ++ " " ++ dquote ++ function_name ++ dquote.

(** What [check_file] returns: [(file_functions, missing_doc_functions,
    falsely_undoc_functions, file_num_doc_lines, other_lint)]. *)
Record Report := mkReport {
  file_functions : gset (string * string);
  missing_doc_functions : gset string;
  falsely_undoc_functions : gset string;
  file_num_doc_lines : nat;
  other_lint : list string
}.

(** The body of the loop of [check_file] for one function, on the report
    so far; [boundary] is the line of the function before. *)
Definition check_function (file_name : string) (undocumented : gset (string * string))
           (source : list string) (boundary : nat) (report : Report)
           (function_name : string) (line_number : nat) : Outcome Report :=
  let file_functions := {[ (file_name, function_name) ]} ∪ file_functions report in
  match find_docs line_number boundary source with
  | Raises e => Raises e
  | Returns doc_lines =>
      let code_location := code_location file_name line_number function_name in
      let other_lint := (other_lint report ++ lint_comment doc_lines code_location)%list in
      let is_undocumented := bool_decide ((file_name, function_name) ∈ undocumented) in
      match doc_lines with
      | _ :: _ =>
          let file_num_doc_lines := file_num_doc_lines report + length doc_lines in
          let falsely_undoc_functions :=
            if is_undocumented
            then {[ code_location ]} ∪ falsely_undoc_functions report
            else falsely_undoc_functions report in
          Returns (mkReport file_functions (missing_doc_functions report)
                            falsely_undoc_functions file_num_doc_lines other_lint)
      | [] =>
          let missing_doc_functions :=
            if negb is_undocumented
            then {[ code_location ]} ∪ missing_doc_functions report
            else missing_doc_functions report in
          Returns (mkReport file_functions missing_doc_functions
                            (falsely_undoc_functions report)
                            (file_num_doc_lines report) other_lint)
      end
  end.

(** The loop of [check_file] over the functions [find_functions] yields. *)
Fixpoint check_functions (file_name : string) (undocumented : gset (string * string))
         (source : list string) (functions : list (string * nat))
         (boundary : nat) (report : Report) : Outcome Report :=
  match functions with
  | [] => Returns report
  | (function_name, line_number) :: rest =>
      match check_function file_name undocumented source boundary report
                           function_name line_number with
      | Raises e => Raises e
      | Returns report' =>
          check_functions file_name undocumented source rest line_number report'
      end
  end.

(** The body of [check_file(file_name, undocumented)] once the file is
    read: [source] is what [open(file_name).readlines()] gave. *)
Definition check_file (source : list string) (file_name : string)
           (undocumented : gset (string * string)) : Outcome Report :=
  check_functions file_name undocumented source (find_functions source) 0
                  (mkReport ∅ ∅ ∅ 0 []).

(** The files on disk: the lines of every file that can be opened and
    read to its end, each line with its line break, by name. *)
Definition Files : Type := gmap string (list string).

(** [open(file_name)] followed by [f.readlines()]: the lines of the
    file, or the [IOError] of a file that is not there or cannot be
    read (a directory, a dangling link, a file without permission). *)
Definition readlines (files : Files) (file_name : string) : Outcome (list string) :=
  match files !! file_name with
  | Some source => Returns source
  | None => Raises (IOError file_name)
  end.

(** [check_file(file_name, undocumented)] from its first line, on the
    files on disk: the file is opened and read, then its lines are
    checked. *)
Definition check_file_on (files : Files) (file_name : string)
           (undocumented : gset (string * string)) : Outcome Report :=
  match readlines files file_name with
  | Raises e => Raises e
  | Returns source => check_file source file_name undocumented
  end.

(** [new_style_regex.match(line).groups()], for the pattern
    [([^:]+):\d+ Q([^Q]+)Q], where [Q] stands for the double quote. *)
Definition parser (line : string) : Outcome (string * string) :=
  let (file_name, s1) := span (fun c => negb (Ascii.eqb c ":"%char)) line in
  match file_name, s1 with
  | String _ _, String _ s2 =>
      let (digits, s3) := span is_digit s2 in
      match digits, s3 with
      | String _ _, String " "%char (String "034"%char s4) =>
          let (function_name, s5) := span (fun c => negb (Ascii.eqb c "034"%char)) s4 in
          match function_name, s5 with
          | String _ _, String _ _ => Returns (file_name, function_name)
          | _, _ => Raises AttributeError
          end
      | _, _ => Raises AttributeError
      end
  | _, _ => Raises AttributeError
  end.

Fixpoint map_parser (lines : list string) : Outcome (list (string * string)) :=
  match lines with
  | [] => Returns []
  | line :: rest =>
      match parser line with
      | Raises e => Raises e
      | Returns entry =>
          match map_parser rest with
          | Raises e => Raises e
          | Returns entries => Returns (entry :: entries)
          end
      end
  end.

Definition old_style_message : string :=
  "This version of the lint-yuidoc program can not read the old-style "
  ++ dquote ++ "undocumented" ++ dquote
  ++ " file.  Try regenerating it with --generate-undocumented.".

(** [read_undocumented_listing(lines)] *)
Definition read_undocumented_listing (lines : list string)
  : Outcome (gset (string * string)) :=
  let old_style :=
    match lines with
    | [] => false
    | first :: _ => negb (contains first ":"%char)
    end in
  if old_style then Raises (RuntimeError old_style_message)
  else
    match map_parser lines with
    | Raises e => Raises e
    | Returns entries => Returns (list_to_set entries)
    end.

End LintYuidoc.

(** Words for the lines the linter reads. *)
Module Lines.
Import Py.

Fixpoint all_chars (p : ascii -> bool) (s : string) : bool :=
  match s with
  | EmptyString => true
  | String c rest => p c && all_chars p rest
  end.

(** Nothing of [s] would be taken by a repetition of [p]. *)
Definition stops (p : ascii -> bool) (s : string) : bool :=
  match s with
  | EmptyString => true
  | String c _ => negb (p c)
  end.

Definition is_spaces (s : string) : bool := all_chars is_space s.

(** An identifier: one or more word characters. *)
Definition is_identifier (s : string) : bool :=
  negb (String.eqb s "") && all_chars is_word s.

(** How [find_docs] sees a line, once stripped. *)
Definition opens_documentation (line : string) : bool := startswith (strip line) "/**".
Definition opens_comment (line : string) : bool := startswith (strip line) "/*".
Definition closes_comment (line : string) : bool := endswith (strip line) "*/".
Definition has_brace (line : string) : bool :=
  contains (strip line) "{"%char || contains (strip line) "}"%char.

(** A line below a comment that does not stop the search of [find_docs]:
    it neither ends a comment nor opens documentation, and has no brace. *)
Definition is_quiet (line : string) : bool :=
  negb (closes_comment line) && negb (opens_documentation line) && negb (has_brace line).

(** The last character of a string. *)
Fixpoint final_char (s : string) : option ascii :=
  match s with
  | EmptyString => None
  | String c rest =>
      match rest with
      | EmptyString => Some c
      | String _ _ => final_char rest
      end
  end.

(** A file name and a function name that can be told apart in a line of
    the listing. *)
Definition is_file_name (s : string) : bool :=
  negb (String.eqb s "") && negb (contains s ":"%char).
Definition is_quotable (s : string) : bool :=
  negb (String.eqb s "") && negb (contains s "034"%char).

End Lines.

(** A source file and a listing for the linter. *)
Module LintTests.
Import Py LintYuidoc.

Definition newline : string := String "010"%char EmptyString.

Definition lines_of (texts : list string) : list string :=
  (fun text => text ++ newline) <$> texts.

(** The beginning of a file in the style of terms.js. *)
Definition source : list string :=
  lines_of ["/* Copyright (C) 2016 Canonical Ltd. */";
            "";
            "  /**";
            "    Initializer.";
            "  */";
            "  function terms(url, bakery) {";
            "    this.url = url;";
            "  };";
            "    showTerms: function(name, revision, callback) {";
            "      var handler = function(error, response) {"].

(** The documentation of [terms] in [source]. *)
Definition documentation : list string :=
  lines_of ["  /**"; "    Initializer."; "  */"].

(** A file whose documentation comment is not ended. *)
Definition unterminated : list string :=
  lines_of ["'use strict';";
            "/** Initializer.";
            "function terms(url, bakery) {"].

(** What [check_file] reports for [source], without a listing: [terms] is
    documented, in three lines, [showTerms] is not. *)
Definition report : Report :=
  mkReport {[ ("terms.js", "terms"); ("terms.js", "showTerms") ]}
           {[ code_location "terms.js" 8 "showTerms" ]}
           ∅ 3 [].

(** The functions of a listing: file name, line number, function name. *)
Definition undocumented : list (string * nat * string) :=
  [("app/views/utils.js", 41, "humanizeTimestamp");
   ("app/store/env/go.js", 7, "cleanUpJSON")].

End LintTests.

(* ===================================================================== *)
(** ** Construction: the stored URL *)
(* ===================================================================== *)

Lemma string_app_assoc (s t u : string) : (s ++ t) ++ u = s ++ t ++ u.
Proof.
  induction s as [|c s IH]; [reflexivity|].
  change (String c ((s ++ t) ++ u) = String c (s ++ t ++ u)). now rewrite IH.
Qed.

Lemma string_app_nil_r (s : string) : s ++ "" = s.
Proof.
  induction s as [|c s IH]; [reflexivity|].
  change (String c (s ++ "") = String c s). now rewrite IH.
Qed.

Lemma replace_appends_separator (s : string) :
  replace_optional_slash_at_end s "/" = without_trailing_separator s ++ "/".
Proof.
  induction s as [|c rest IH]; [reflexivity|].
  destruct rest as [|c' rest'].
  - simpl. destruct (is_slash c); reflexivity.
  - change (String c (replace_optional_slash_at_end (String c' rest') "/")
            = String c (without_trailing_separator (String c' rest') ++ "/")).
    now rewrite IH.
Qed.

Lemma replace_keeps_separator (s : string) :
  replace_optional_slash_at_end s "/" = if ends_with_separator s then s else s ++ "/".
Proof.
  induction s as [|c rest IH]; [reflexivity|].
  destruct rest as [|c' rest'].
  - unfold ends_with_separator. simpl. unfold is_slash.
    destruct (Ascii.eqb_spec c "/"%char); subst; reflexivity.
  - change (String c (replace_optional_slash_at_end (String c' rest') "/")
            = if ends_with_separator (String c' rest')
              then String c (String c' rest')
              else String c (String c' rest' ++ "/")).
    rewrite IH. now destruct (ends_with_separator (String c' rest')).
Qed.

Lemma without_trailing_separator_stem (s : string) :
  s = if ends_with_separator s
      then without_trailing_separator s ++ "/"
      else without_trailing_separator s.
Proof.
  induction s as [|c rest IH]; [reflexivity|].
  destruct rest as [|c' rest'].
  - unfold ends_with_separator. simpl. unfold is_slash.
    destruct (Ascii.eqb_spec c "/"%char); subst; reflexivity.
  - change (String c (String c' rest')
            = if ends_with_separator (String c' rest')
              then String c (without_trailing_separator (String c' rest') ++ "/")
              else String c (without_trailing_separator (String c' rest'))).
    destruct (ends_with_separator (String c' rest')); now rewrite <- IH.
Qed.

Lemma string_length_app (s t : string) :
  String.length (s ++ t) = String.length s + String.length t.
Proof.
  induction s as [|c s IH]; [reflexivity|].
  change (S (String.length (s ++ t)) = S (String.length s + String.length t)).
  now rewrite IH.
Qed.

Lemma all_separators_app (s t : string) :
  all_separators (s ++ t) = all_separators s && all_separators t.
Proof.
  induction s as [|c s IH]; [reflexivity|].
  change (is_slash c && all_separators (s ++ t)
          = is_slash c && all_separators s && all_separators t).
  rewrite IH. now destruct (is_slash c).
Qed.

Lemma trailing_separators_all (s : string) :
  all_separators s = true -> trailing_separators s = String.length s.
Proof.
  destruct s as [|c rest]; [reflexivity|]. simpl. now intros ->.
Qed.

Lemma trailing_separators_app (s : string) :
  trailing_separators (s ++ "/") = S (trailing_separators s).
Proof.
  induction s as [|c s IH]; [reflexivity|].
  change (trailing_separators (String c (s ++ "/"))
          = S (trailing_separators (String c s))).
  simpl. rewrite all_separators_app, string_length_app. simpl.
  rewrite andb_true_r, IH.
  destruct (is_slash c && all_separators s); [f_equal; lia|reflexivity].
Qed.

Lemma trailing_separators_none (s : string) :
  ends_with_separator s = false <-> trailing_separators s = 0.
Proof.
  induction s as [|c rest IH]; [easy|].
  destruct rest as [|c' rest'].
  - unfold ends_with_separator. simpl. rewrite andb_true_r.
    now destruct (is_slash c).
  - change (ends_with_separator (String c (String c' rest')))
      with (ends_with_separator (String c' rest')).
    change (trailing_separators (String c (String c' rest')))
      with (if is_slash c && all_separators (String c' rest')
            then S (String.length (String c' rest'))
            else trailing_separators (String c' rest')).
    destruct (is_slash c && all_separators (String c' rest')) eqn:Hall; [|exact IH].
    apply andb_true_iff in Hall as [_ Hall].
    apply trailing_separators_all in Hall.
    split; [|discriminate].
    intros Hends. apply IH in Hends. rewrite Hall in Hends. discriminate Hends.
Qed.

Lemma trailing_separators_replace (s : string) :
  trailing_separators (replace_optional_slash_at_end s "/")
  = Nat.max 1 (trailing_separators s).
Proof.
  rewrite replace_keeps_separator.
  pose proof (trailing_separators_none s) as Hnone.
  destruct (ends_with_separator s).
  - destruct (trailing_separators s) eqn:Hts; [|lia].
    discriminate (proj2 Hnone eq_refl).
  - rewrite trailing_separators_app, (proj1 Hnone eq_refl). reflexivity.
Qed.

Lemma without_trailing_separators_length (s : string) :
  String.length (without_trailing_separators s) + trailing_separators s
  = String.length s.
Proof.
  induction s as [|c rest IH]; [reflexivity|]. simpl.
  destruct (is_slash c && all_separators rest); simpl; lia.
Qed.

Lemma without_trailing_separator_length (s : string) :
  String.length (without_trailing_separator s)
  + (if ends_with_separator s then 1 else 0)
  = String.length s.
Proof.
  rewrite (without_trailing_separator_stem s) at 3.
  destruct (ends_with_separator s).
  - rewrite string_length_app. reflexivity.
  - lia.
Qed.

Lemma without_trailing_separators_one (s : string) :
  trailing_separators s <= 1 ->
  without_trailing_separators s = without_trailing_separator s.
Proof.
  induction s as [|c rest IH]; [reflexivity|].
  destruct rest as [|c' rest'].
  - intros _. simpl. rewrite andb_true_r. reflexivity.
  - change (trailing_separators (String c (String c' rest')))
      with (if is_slash c && all_separators (String c' rest')
            then S (String.length (String c' rest'))
            else trailing_separators (String c' rest')).
    change (without_trailing_separators (String c (String c' rest')))
      with (if is_slash c && all_separators (String c' rest')
            then EmptyString
            else String c (without_trailing_separators (String c' rest'))).
    change (without_trailing_separator (String c (String c' rest')))
      with (String c (without_trailing_separator (String c' rest'))).
    destruct (is_slash c && all_separators (String c' rest')).
    + simpl. lia.
    + intros Hle. now rewrite IH.
Qed.

(** C3, amended. For every base URL the client built by [terms] stores
    the base (less one trailing separator, when it has one), one ['/']
    and the version segment ['v1']: a separator is appended exactly when
    the base does not already end in one, and none is ever removed.  So
    the version segment comes after as many separators as the base ends
    in, and after one when it ends in none; there is exactly one
    separator between the base and the version segment if and only if the
    base ends in at most one. *)
Theorem terms_stores_normalized_url (w : World) (this : loc) (base : string) (b : loc) :
  let stem := without_trailing_separator base in
  exists c : TermsClient.t,
    clients (world_after (terms this base b) w) !! this = Some c
    /\ TermsClient.bakery c = b
    /\ TermsClient.url c = stem ++ "/" ++ "v1"
    /\ base = (if ends_with_separator base then stem ++ "/" else stem)
    /\ TermsClient.url c = normalized base
    /\ (exists body : string,
           TermsClient.url c = body ++ "v1"
           /\ trailing_separators body = Nat.max 1 (trailing_separators base))
    /\ (one_separator_before_version base (TermsClient.url c)
        <-> trailing_separators base <= 1).
Proof.
  intros stem.
  exists (TermsClient.make (replace_optional_slash_at_end base "/" ++ termsAPIVersion) b).
  assert (Hurl : replace_optional_slash_at_end base "/" ++ termsAPIVersion
                 = stem ++ "/" ++ "v1").
  { rewrite replace_appends_separator. unfold termsAPIVersion.
    now rewrite string_app_assoc. }
  split; [|split; [reflexivity|split; [|split; [|split; [|split]]]]].
  - unfold terms, put_client, world_after. simpl. apply lookup_insert_eq.
  - exact Hurl.
  - apply without_trailing_separator_stem.
  - simpl. rewrite replace_keeps_separator. reflexivity.
  - exists (replace_optional_slash_at_end base "/").
    split; [reflexivity|apply trailing_separators_replace].
  - unfold one_separator_before_version. simpl. rewrite Hurl. split.
    + intros Heq. apply (f_equal String.length) in Heq.
      rewrite !string_length_app in Heq.
      pose proof (without_trailing_separators_length base) as Hall.
      pose proof (without_trailing_separator_length base) as Hone.
      fold stem in Hone.
      destruct (ends_with_separator base); lia.
    + intros Hle. unfold stem. now rewrite without_trailing_separators_one.
Qed.

(** C3 as the specification states it fails for a base that ends in two
    separators: [terms] takes one of them for the separator it would
    append and keeps the other, so two separators stand before the
    version segment, where the specification has exactly one (and the
    base followed by a separator of its own would have three). *)
Lemma terms_keeps_doubled_separator :
  exists c : TermsClient.t,
    clients (world_after (terms Tests.this "http://1.2.3.4//" Tests.bakery)
                         Tests.empty_world) !! Tests.this = Some c
    /\ TermsClient.url c = "http://1.2.3.4//v1"
    /\ trailing_separators "http://1.2.3.4//" = 2
    /\ ~ one_separator_before_version "http://1.2.3.4//" (TermsClient.url c)
    /\ TermsClient.url c <> "http://1.2.3.4//" ++ "/" ++ "v1".
Proof.
  eexists. split; [reflexivity|]. split; [reflexivity|]. split; [reflexivity|].
  split.
  - intros Hone. vm_compute in Hone. discriminate Hone.
  - intros Heq. vm_compute in Heq. discriminate Heq.
Qed.

(* ===================================================================== *)
(** ** The request path *)
(* ===================================================================== *)

Lemma revision_supplied_test (revision : JsValue) :
  revision_supplied revision = strict_eq_zero revision || ToBoolean revision.
Proof.
  destruct revision as [| |b|n|s|props|elems]; try reflexivity.
  - destruct n as [|neg| |z]; try reflexivity.
    simpl. now destruct (z =? 0)%Z.
  - now destruct s.
Qed.

Lemma query_is_not_empty (plain text : string) :
  plain ++ "?revision=" ++ text <> plain.
Proof.
  intros H. rewrite <- (string_app_nil_r plain) in H at 2.
  apply (inj (String.append plain)) in H. discriminate H.
Qed.

Section request_path.

Context {R : Type}.
Variable Date_parse : string -> JsNumber.
Variable _makeRequest : loc -> string -> string -> JsValue -> Handler -> Exec R.

(** All [showTerms] does is one call of [_makeRequest], for the bakery
    of the client, with the handler wrapped around the callback. *)
Lemma showTerms_delegates (w : World) (this : loc) (c : TermsClient.t)
      (name : string) (revision : JsValue) (callback : Callback) (text : string) :
  clients w !! this = Some c ->
  ToString revision = Normal text ->
  showTerms Date_parse _makeRequest this name revision callback w
  = _makeRequest (TermsClient.bakery c)
      (if strict_eq_zero revision || ToBoolean revision
       then (TermsClient.url c ++ "/terms/") ++ name ++ "?revision=" ++ text
       else (TermsClient.url c ++ "/terms/") ++ name)
      "GET" VNull (handler Date_parse callback) w.
Proof.
  intros Hc Htext.
  unfold showTerms, mbind, Exec_bind, get_client. rewrite Hc.
  destruct (strict_eq_zero revision || ToBoolean revision).
  - unfold lift, mret, Exec_ret. rewrite Htext, Hc.
    now rewrite string_app_assoc.
  - unfold mret, Exec_ret. now rewrite Hc.
Qed.

(** C1. For every name and revision, [showTerms] requests the stored
    endpoint followed by ['/terms/'] and the name, with ['?revision='] and
    the revision appended if and only if a revision was supplied; the
    number 0 is a revision (['?revision=0']), [null] is none (no query
    string). *)
Theorem showTerms_request_path (w : World) (this : loc) (c : TermsClient.t)
        (name : string) (callback : Callback) :
  clients w !! this = Some c ->
  let endpoint := TermsClient.url c in
  let issued path :=
    _makeRequest (TermsClient.bakery c) path "GET" VNull (handler Date_parse callback) w in
  (forall revision text,
      ToString revision = Normal text ->
      showTerms Date_parse _makeRequest this name revision callback w
      = issued (endpoint ++ "/terms/" ++ name ++
                (if revision_supplied revision then "?revision=" ++ text else "")))
  /\ showTerms Date_parse _makeRequest this name (VNumber (Int 0)) callback w
     = issued (endpoint ++ "/terms/" ++ name ++ "?revision=0")
  /\ showTerms Date_parse _makeRequest this name VNull callback w
     = issued (endpoint ++ "/terms/" ++ name).
Proof.
  intros Hc endpoint issued.
  assert (Hall : forall revision text,
             ToString revision = Normal text ->
             showTerms Date_parse _makeRequest this name revision callback w
             = issued (endpoint ++ "/terms/" ++ name ++
                       (if revision_supplied revision then "?revision=" ++ text else ""))).
  { intros revision text Htext.
    rewrite (showTerms_delegates w this c name revision callback text Hc Htext).
    rewrite revision_supplied_test. subst issued endpoint.
    destruct (strict_eq_zero revision || ToBoolean revision).
    - now rewrite string_app_assoc.
    - now rewrite string_app_nil_r, string_app_assoc. }
  split; [exact Hall|split].
  - exact (Hall (VNumber (Int 0)) "0" eq_refl).
  - rewrite (Hall VNull "null" eq_refl). simpl. now rewrite string_app_nil_r.
Qed.

(** C10. A revision that is falsy and not the number 0 ([undefined], the
    empty string, [false], [NaN], as well as [null]) is requested as
    [null] is, without a query string; the query string is appended
    precisely when the revision is the number 0 or truthy. *)
Theorem showTerms_falsy_revision (w : World) (this : loc) (c : TermsClient.t)
        (name : string) (revision : JsValue) (callback : Callback) (text : string) :
  clients w !! this = Some c ->
  ToString revision = Normal text ->
  let plain := TermsClient.url c ++ "/terms/" ++ name in
  let issued path :=
    _makeRequest (TermsClient.bakery c) path "GET" VNull (handler Date_parse callback) w in
  (In revision [VUndefined; VString ""; VBool false; VNumber NaN; VNull]
   <-> strict_eq_zero revision = false /\ ToBoolean revision = false)
  /\ (strict_eq_zero revision = false /\ ToBoolean revision = false ->
      showTerms Date_parse _makeRequest this name revision callback w = issued plain
      /\ showTerms Date_parse _makeRequest this name revision callback w
         = showTerms Date_parse _makeRequest this name VNull callback w)
  /\ (strict_eq_zero revision = true \/ ToBoolean revision = true ->
      showTerms Date_parse _makeRequest this name revision callback w
      = issued (plain ++ "?revision=" ++ text))
  /\ plain ++ "?revision=" ++ text <> plain.
Proof.
  intros Hc Htext plain issued.
  pose proof (showTerms_delegates w this c name revision callback text Hc Htext) as Hrun.
  pose proof (showTerms_delegates w this c name VNull callback "null" Hc eq_refl) as Hnull.
  simpl in Hnull.
  split; [|split; [|split]].
  - split.
    + simpl. intros [<-|[<-|[<-|[<-|[<-|[]]]]]]; now split.
    + intros [Hz Hb].
      destruct revision as [| |b|n|s|props|elems]; simpl in Hz, Hb;
        try discriminate; simpl.
      * tauto.
      * tauto.
      * subst b. tauto.
      * destruct n as [|neg| |z]; try discriminate; [tauto|].
        rewrite Hz in Hb. discriminate.
      * destruct s; [tauto|discriminate].
  - intros [Hz Hb]. rewrite Hz, Hb in Hrun. simpl in Hrun.
    subst issued plain. rewrite Hnull, Hrun. now rewrite string_app_assoc.
  - intros Hcond.
    assert (Ht : strict_eq_zero revision || ToBoolean revision = true).
    { destruct Hcond as [-> | ->]; [reflexivity|apply orb_true_r]. }
    rewrite Ht in Hrun. subst issued plain. rewrite Hrun.
    now rewrite !string_app_assoc.
  - apply query_is_not_empty.
Qed.

End request_path.

(* ===================================================================== *)
(** ** The response handler *)
(* ===================================================================== *)

Section handler.

Variable Date_parse : string -> JsNumber.
Variable callback : Callback.

Lemma handler_error (error response : JsValue) (w : World) :
  error <> VNull ->
  handler Date_parse callback error response w = callback error None w.
Proof.
  intros Hne. unfold handler.
  destruct error; try reflexivity. now contradiction Hne.
Qed.

Lemma handler_first_element (props : gmap string JsValue) (rest : list JsValue)
      (created : string) (w : World) :
  props !! "created-on" = Some (VString created) ->
  handler Date_parse callback VNull (VArray (VObject props :: rest)) w
  = callback VNull (Some (record props (Date_parse created))) w.
Proof.
  intros Hcreated.
  unfold handler, mbind, Exec_bind, lift. simpl.
  now rewrite Hcreated.
Qed.

End handler.

(* ===================================================================== *)
(** ** Calls, replies and the store *)
(* ===================================================================== *)

Lemma extend_nil (w : World) : extend w [] = w.
Proof. destruct w as [cs bs tr]. unfold extend. simpl. now rewrite app_nil_r. Qed.

Lemma extend_extend (w : World) (evs evs' : list Event) :
  extend (extend w evs) evs' = extend w (evs ++ evs')%list.
Proof. unfold extend. simpl. now rewrite app_assoc. Qed.

Lemma events_of_extend {A : Type} (m : Exec A) (w : World) (res : Completion A)
      (evs : list Event) :
  m w = (res, extend w evs) -> events_of m w = evs.
Proof.
  intros H. unfold events_of, world_after. rewrite H. simpl. apply drop_app_length.
Qed.

Lemma callbacks_invocations (invocations : list (JsValue * option TermsData.t)) :
  callbacks (invocation_event <$> invocations) = invocations.
Proof.
  induction invocations as [|[error data] l IH]; [reflexivity|].
  change (callbacks (invocation_event <$> (error, data) :: l))
    with ((error, data) :: callbacks (invocation_event <$> l)).
  now rewrite IH.
Qed.

Lemma requests_invocations (invocations : list (JsValue * option TermsData.t)) :
  requests (invocation_event <$> invocations) = [].
Proof. induction invocations as [|[error data] l IH]; [reflexivity|exact IH]. Qed.

Section only_callbacks.

Lemma only_callbacks_ret {A : Type} (a : A) : only_callbacks (mret a).
Proof. exists (Normal a), []. intros w. now rewrite extend_nil. Qed.

Lemma only_callbacks_lift {A : Type} (c : Completion A) : only_callbacks (lift c).
Proof. exists c, []. intros w. now rewrite extend_nil. Qed.

Lemma only_callbacks_observer (error : JsValue) (data : option TermsData.t) :
  only_callbacks (observer error data).
Proof. exists (Normal tt), [(error, data)]. intros w. reflexivity. Qed.

Lemma only_callbacks_bind {A B : Type} (m : Exec A) (k : A -> Exec B) :
  only_callbacks m -> (forall a, only_callbacks (k a)) -> only_callbacks (m ≫= k).
Proof.
  intros (res & evs & Hm) Hk. destruct res as [a|e].
  - destruct (Hk a) as (res' & evs' & Hka).
    exists res', (evs ++ evs')%list. intros w.
    unfold mbind, Exec_bind. rewrite Hm, Hka, extend_extend. now rewrite fmap_app.
  - exists (Throw e), evs. intros w. unfold mbind, Exec_bind. now rewrite Hm.
Qed.

End only_callbacks.

Ltac only_callbacks_step :=
  first [ apply only_callbacks_bind; [|intros ?]
        | apply only_callbacks_ret
        | apply only_callbacks_lift
        | apply only_callbacks_observer ].

Section frame.

Variable Date_parse : string -> JsNumber.

Lemma handler_only_callbacks (error response : JsValue) :
  only_callbacks (handler Date_parse observer error response).
Proof.
  unfold handler.
  destruct (negb (strict_eq_null error)); [apply only_callbacks_observer|].
  apply only_callbacks_bind; [apply only_callbacks_lift|intros len].
  destruct (negb (ToBoolean len)); [apply only_callbacks_observer|].
  repeat only_callbacks_step.
Qed.

(** The continuations [_makeRequest] hands to the bakery for the handler
    of [showTerms]. *)
Lemma makeRequest_pending (b : loc) (path : string) :
  exists p : Pending,
    (forall w, _makeRequest b path "GET" VNull (handler Date_parse observer) w
               = (Normal p, extend w [SendGetRequest b path]))
    /\ (forall decoded,
           success p decoded = handler Date_parse observer VNull decoded)
    /\ (forall decoded, only_callbacks (failure p decoded))
    /\ (forall props message,
           props !! "Message" = Some (VString message) ->
           forall w, failure p (VObject props) w
                     = handler Date_parse observer (VString message) (VObject props) w).
Proof.
  eexists. split; [intros w; reflexivity|]. split; [reflexivity|]. split.
  - intros decoded. simpl.
    apply only_callbacks_bind; [apply only_callbacks_lift|intros upper].
    apply only_callbacks_bind; [|intros message; apply handler_only_callbacks].
    destruct upper; only_callbacks_step.
  - intros props message Hm w. simpl.
    unfold mbind, Exec_bind, lift. simpl. rewrite Hm. reflexivity.
Qed.

Lemma invoke_all_only_callbacks (p : Pending) (reaction : list Reply) :
  (forall decoded, only_callbacks (success p decoded)) ->
  (forall decoded, only_callbacks (failure p decoded)) ->
  only_callbacks (invoke_all p reaction).
Proof.
  intros Hs Hf. induction reaction as [|r rs IH]; simpl.
  - apply only_callbacks_ret.
  - apply only_callbacks_bind; [|intros _; exact IH].
    destruct r; [apply Hs|apply Hf].
Qed.

Lemma falsy_has_text (v : JsValue) :
  strict_eq_zero v || ToBoolean v = false -> exists text, ToString v = Normal text.
Proof.
  destruct v as [| |b|n|s|props|elems]; simpl; intros H;
    try discriminate; try (eexists; reflexivity).
  destruct b; eexists; reflexivity.
Qed.

(** What one call does depends on the store through the client object
    alone, and changes nothing but the trace: at most one request, which
    does not depend on the bakery's reaction, then callback
    invocations. *)
Lemma call_frame (this : loc) (name : string) (revision : JsValue)
      (client : option TermsClient.t) :
  exists sent : list Event,
    callbacks sent = []
    /\ forall reaction, exists res invocations,
        forall w, clients w !! this = client ->
          call Date_parse this name revision reaction w
          = (res, extend w (sent ++ (invocation_event <$> invocations))%list).
Proof.
  destruct client as [c|].
  - destruct (ToString revision) as [text|e] eqn:Htext.
    + set (path := if strict_eq_zero revision || ToBoolean revision
                   then (TermsClient.url c ++ "/terms/") ++ name ++ "?revision=" ++ text
                   else (TermsClient.url c ++ "/terms/") ++ name).
      destruct (makeRequest_pending (TermsClient.bakery c) path) as (p & Hp & Hs & Hf & _).
      exists [SendGetRequest (TermsClient.bakery c) path]. split; [reflexivity|].
      intros reaction.
      destruct (invoke_all_only_callbacks p reaction) as (res & invocations & Hinv);
        [intros decoded; rewrite Hs; apply handler_only_callbacks|exact Hf|].
      exists res, invocations. intros w Hw.
      unfold call, mbind, Exec_bind.
      rewrite (showTerms_delegates Date_parse _makeRequest w this c name revision
                                   observer text Hw Htext).
      fold path. rewrite Hp, Hinv. now rewrite extend_extend.
    + exists []. split; [reflexivity|]. intros reaction.
      exists (Throw e), []. intros w Hw.
      destruct (strict_eq_zero revision || ToBoolean revision) eqn:Hcond.
      * unfold call, showTerms, mbind, Exec_bind, get_client, lift.
        rewrite Hw, Hcond, Htext. simpl. now rewrite extend_nil.
      * destruct (falsy_has_text revision Hcond) as [text Htext'].
        rewrite Htext' in Htext. discriminate Htext.
  - exists []. split; [reflexivity|]. intros reaction.
    eexists (Throw _), []. intros w Hw.
    unfold call, showTerms, mbind, Exec_bind, get_client.
    rewrite Hw. simpl. now rewrite extend_nil.
Qed.

Lemma call_preserves_store (this : loc) (name : string) (revision : JsValue)
      (reaction : list Reply) (w : World) :
  clients (world_after (call Date_parse this name revision reaction) w) = clients w
  /\ bakeries (world_after (call Date_parse this name revision reaction) w) = bakeries w.
Proof.
  destruct (call_frame this name revision (clients w !! this)) as (sent & _ & Hcall).
  destruct (Hcall reaction) as (res & invocations & Hrun).
  unfold world_after. rewrite (Hrun w eq_refl). split; reflexivity.
Qed.

(** A call behaves in the same way in two worlds that hold the same
    client object. *)
Lemma call_depends_on_client (this : loc) (name : string) (revision : JsValue)
      (reaction : list Reply) (w w' : World) :
  clients w' !! this = clients w !! this ->
  events_of (call Date_parse this name revision reaction) w'
  = events_of (call Date_parse this name revision reaction) w
  /\ result_of (call Date_parse this name revision reaction) w'
     = result_of (call Date_parse this name revision reaction) w.
Proof.
  intros Hsame.
  destruct (call_frame this name revision (clients w !! this)) as (sent & _ & Hcall).
  destruct (Hcall reaction) as (res & invocations & Hrun).
  split.
  - rewrite (events_of_extend _ _ _ _ (Hrun w eq_refl)).
    now rewrite (events_of_extend _ _ _ _ (Hrun w' Hsame)).
  - unfold result_of. now rewrite (Hrun w eq_refl), (Hrun w' Hsame).
Qed.

(** The request of a call does not depend on what the bakery does with
    it. *)
Lemma call_requests_same (this : loc) (name : string) (revision : JsValue)
      (reaction reaction' : list Reply) (w w' : World) :
  clients w' !! this = clients w !! this ->
  requests (events_of (call Date_parse this name revision reaction') w')
  = requests (events_of (call Date_parse this name revision reaction) w).
Proof.
  intros Hsame.
  destruct (call_frame this name revision (clients w !! this)) as (sent & _ & Hcall).
  destruct (Hcall reaction) as (res & invocations & Hrun).
  destruct (Hcall reaction') as (res' & invocations' & Hrun').
  rewrite (events_of_extend _ _ _ _ (Hrun w eq_refl)).
  rewrite (events_of_extend _ _ _ _ (Hrun' w' Hsame)).
  unfold requests. rewrite !omap_app.
  fold (requests (invocation_event <$> invocations)).
  fold (requests (invocation_event <$> invocations')).
  now rewrite !requests_invocations.
Qed.

End frame.

(* ===================================================================== *)
(** ** One call and the bakery's reply *)
(* ===================================================================== *)

Section replies.

Variable Date_parse : string -> JsNumber.

Lemma delegated_path (endpoint name : string) (revision : JsValue) (text : string) :
  (if strict_eq_zero revision || ToBoolean revision
   then (endpoint ++ "/terms/") ++ name ++ "?revision=" ++ text
   else (endpoint ++ "/terms/") ++ name)
  = terms_path endpoint name revision text.
Proof.
  unfold terms_path. rewrite revision_supplied_test.
  destruct (strict_eq_zero revision || ToBoolean revision).
  - now rewrite string_app_assoc.
  - now rewrite string_app_nil_r, string_app_assoc.
Qed.

(** A call answered once: the request, then one callback invocation. *)
Lemma call_answered_once (w : World) (this : loc) (c : TermsClient.t)
      (name : string) (revision : JsValue) (text : string) :
  clients w !! this = Some c ->
  ToString revision = Normal text ->
  let sent := SendGetRequest (TermsClient.bakery c)
                             (terms_path (TermsClient.url c) name revision text) in
  (forall props message,
      props !! "Message" = Some (VString message) ->
      call Date_parse this name revision [Fails (VObject props)] w
      = (Normal tt, extend w [sent; CallbackCalled (VString message) None]))
  /\ call Date_parse this name revision [Succeeds (VArray [])] w
     = (Normal tt, extend w [sent; CallbackCalled VNull None])
  /\ (forall props rest created,
         props !! "created-on" = Some (VString created) ->
         call Date_parse this name revision [Succeeds (VArray (VObject props :: rest))] w
         = (Normal tt,
            extend w [sent;
                      CallbackCalled VNull (Some (record props (Date_parse created)))])).
Proof.
  intros Hc Htext sent.
  assert (Hcall : forall r,
             call Date_parse this name revision [r] w
             = (invoke_all
                  (mkPending
                     (fun decoded => handler Date_parse observer VNull decoded)
                     (fun decoded =>
                        upper ← lift (GetV decoded (Named "Message"));
                        message ← (match upper with
                                   | VUndefined => lift (GetV decoded (Named "message"))
                                   | _ => mret upper
                                   end);
                        handler Date_parse observer message decoded))
                  [r]) (extend w [sent])).
  { intros r. unfold call, mbind at 1, Exec_bind at 1.
    rewrite (showTerms_delegates Date_parse _makeRequest w this c name revision
                                 observer text Hc Htext).
    rewrite delegated_path. reflexivity. }
  assert (Hobserved : forall error data,
             (observer error data;; mret tt) (extend w [sent])
             = (Normal tt, extend w [sent; CallbackCalled error data])).
  { intros error data. unfold mbind, Exec_bind, observer, emit, extend. simpl.
    now rewrite <- app_assoc. }
  split; [|split].
  - intros props message Hm. rewrite Hcall, <- Hobserved.
    unfold invoke_all, invoke, failure, mbind, Exec_bind, lift. simpl.
    rewrite Hm. reflexivity.
  - rewrite Hcall, <- Hobserved. reflexivity.
  - intros props rest created Hcreated. rewrite Hcall, <- Hobserved.
    unfold invoke_all, invoke, success, mbind at 1, Exec_bind at 1.
    rewrite (handler_first_element Date_parse observer props rest created _ Hcreated).
    reflexivity.
Qed.

(** C4. When the success response is an empty array the callback gets
    [(null, null)]: no error, and no terms object of any kind. *)
Theorem showTerms_empty_response (w : World) (this : loc) (c : TermsClient.t)
        (name : string) (revision : JsValue) (text : string) :
  clients w !! this = Some c ->
  ToString revision = Normal text ->
  (forall (callback : Callback) (w' : World),
      handler Date_parse callback VNull (VArray []) w' = callback VNull None w')
  /\ events_of (call Date_parse this name revision [Succeeds (VArray [])]) w
     = [SendGetRequest (TermsClient.bakery c)
                       (terms_path (TermsClient.url c) name revision text);
        CallbackCalled VNull None]
  /\ result_of (call Date_parse this name revision [Succeeds (VArray [])]) w
     = Normal tt.
Proof.
  intros Hc Htext.
  destruct (call_answered_once w this c name revision text Hc Htext) as (_ & Hempty & _).
  split; [|split].
  - intros callback w'. reflexivity.
  - exact (events_of_extend _ _ _ _ Hempty).
  - unfold result_of. now rewrite Hempty.
Qed.

(** C2. When the success response is a non-empty array the callback gets
    no error and an object made from the first element alone: its [name],
    [title], [revision] and [content] as they are, and as [createdAt] the
    date of the time value its ['created-on'] string parses to.  The
    elements after the first do not matter. *)
Theorem showTerms_non_empty_response (w : World) (this : loc) (c : TermsClient.t)
        (name : string) (revision : JsValue) (text : string)
        (props : gmap string JsValue) (rest : list JsValue) (created : string) :
  clients w !! this = Some c ->
  ToString revision = Normal text ->
  props !! "created-on" = Some (VString created) ->
  let data := TermsData.make (field props "name") (field props "title")
                             (field props "revision") (field props "content")
                             (new_Date (Date_parse created)) in
  (forall (callback : Callback) (w' : World),
      handler Date_parse callback VNull (VArray (VObject props :: rest)) w'
      = callback VNull (Some data) w')
  /\ events_of (call Date_parse this name revision
                     [Succeeds (VArray (VObject props :: rest))]) w
     = [SendGetRequest (TermsClient.bakery c)
                       (terms_path (TermsClient.url c) name revision text);
        CallbackCalled VNull (Some data)]
  /\ forall others : list JsValue,
      events_of (call Date_parse this name revision
                      [Succeeds (VArray (VObject props :: others))]) w
      = events_of (call Date_parse this name revision
                        [Succeeds (VArray (VObject props :: rest))]) w.
Proof.
  intros Hc Htext Hcreated data.
  destruct (call_answered_once w this c name revision text Hc Htext) as (_ & _ & Hfirst).
  split; [|split].
  - intros callback w'.
    exact (handler_first_element Date_parse callback props rest created w' Hcreated).
  - exact (events_of_extend _ _ _ _ (Hfirst props rest created Hcreated)).
  - intros others.
    rewrite (events_of_extend _ _ _ _ (Hfirst props rest created Hcreated)).
    exact (events_of_extend _ _ _ _ (Hfirst props others created Hcreated)).
Qed.

(** C7. A ['created-on'] string that does not parse does not make the
    call fail: the callback still gets no error and an object with the
    [name], [title], [revision] and [content] of the first element; its
    [createdAt] is an invalid date, handed on as it is. *)
Theorem showTerms_unparseable_created_on (w : World) (this : loc) (c : TermsClient.t)
        (name : string) (revision : JsValue) (text : string)
        (props : gmap string JsValue) (rest : list JsValue) (created : string) :
  clients w !! this = Some c ->
  ToString revision = Normal text ->
  props !! "created-on" = Some (VString created) ->
  Date_parse created = NaN ->
  exists data : TermsData.t,
    TermsData.name data = field props "name"
    /\ TermsData.title data = field props "title"
    /\ TermsData.revision data = field props "revision"
    /\ TermsData.content data = field props "content"
    /\ TermsData.createdAt data = new_Date NaN
    /\ is_invalid_date (TermsData.createdAt data)
    /\ (forall (callback : Callback) (w' : World),
           handler Date_parse callback VNull (VArray (VObject props :: rest)) w'
           = callback VNull (Some data) w')
    /\ callbacks (events_of (call Date_parse this name revision
                                  [Succeeds (VArray (VObject props :: rest))]) w)
       = [(VNull, Some data)]
    /\ result_of (call Date_parse this name revision
                       [Succeeds (VArray (VObject props :: rest))]) w
       = Normal tt.
Proof.
  intros Hc Htext Hcreated Hnan.
  destruct (call_answered_once w this c name revision text Hc Htext) as (_ & _ & Hfirst).
  specialize (Hfirst props rest created Hcreated).
  exists (record props (Date_parse created)).
  rewrite (events_of_extend _ _ _ _ Hfirst). unfold result_of. rewrite Hfirst.
  unfold record at 1 2 3 4 5 6. simpl. rewrite Hnan.
  repeat split; try reflexivity.
  intros callback w'. rewrite <- Hnan.
  exact (handler_first_element Date_parse callback props rest created w' Hcreated).
Qed.

(** C5. When the transport fails, the callback gets the [Message] string
    of the error payload and [null]: never a terms object. *)
Theorem showTerms_transport_failure (w : World) (this : loc) (c : TermsClient.t)
        (name : string) (revision : JsValue) (text : string)
        (props : gmap string JsValue) (message : string) :
  clients w !! this = Some c ->
  ToString revision = Normal text ->
  props !! "Message" = Some (VString message) ->
  events_of (call Date_parse this name revision [Fails (VObject props)]) w
  = [SendGetRequest (TermsClient.bakery c)
                    (terms_path (TermsClient.url c) name revision text);
     CallbackCalled (VString message) None]
  /\ result_of (call Date_parse this name revision [Fails (VObject props)]) w
     = Normal tt
  /\ forall (callback : Callback) (response : JsValue) (w' : World),
      handler Date_parse callback (VString message) response w'
      = callback (VString message) None w'.
Proof.
  intros Hc Htext Hm.
  destruct (call_answered_once w this c name revision text Hc Htext) as (Hfail & _ & _).
  split; [|split].
  - exact (events_of_extend _ _ _ _ (Hfail props message Hm)).
  - unfold result_of. now rewrite (Hfail props message Hm).
  - intros callback response w'. now apply handler_error.
Qed.

(** C8. Two calls on the same client with the same name and revision
    issue the same request, whatever the bakery does with the first; when
    the bakery reacts to both in the same way, both invoke the callback
    with the same arguments. *)
Theorem showTerms_repeatable (w : World) (this : loc) (name : string)
        (revision : JsValue) (reaction reaction' : list Reply) :
  let w1 := world_after (call Date_parse this name revision reaction) w in
  requests (events_of (call Date_parse this name revision reaction') w1)
  = requests (events_of (call Date_parse this name revision reaction) w)
  /\ callbacks (events_of (call Date_parse this name revision reaction) w1)
     = callbacks (events_of (call Date_parse this name revision reaction) w)
  /\ result_of (call Date_parse this name revision reaction) w1
     = result_of (call Date_parse this name revision reaction) w.
Proof.
  intros w1.
  assert (Hsame : clients w1 !! this = clients w !! this).
  { subst w1.
    now rewrite (proj1 (call_preserves_store Date_parse this name revision reaction w)). }
  split; [|split].
  - now apply call_requests_same.
  - now rewrite (proj1 (call_depends_on_client Date_parse this name revision
                                               reaction w w1 Hsame)).
  - exact (proj2 (call_depends_on_client Date_parse this name revision
                                         reaction w w1 Hsame)).
Qed.

(** C9. A call leaves the store as it found it: the client objects, with
    their [url] and [bakery], and the bakery objects are the same after
    the call as before, only the trace has grown; and a later call, on
    any client, behaves as if the earlier call had not been made. *)
Theorem showTerms_leaves_store (w : World) (this : loc) (name : string)
        (revision : JsValue) (reaction : list Reply) :
  let w' := world_after (call Date_parse this name revision reaction) w in
  clients w' = clients w
  /\ bakeries w' = bakeries w
  /\ w' = extend w (events_of (call Date_parse this name revision reaction) w)
  /\ forall (this2 : loc) (name2 : string) (revision2 : JsValue)
            (reaction2 : list Reply),
      events_of (call Date_parse this2 name2 revision2 reaction2) w'
      = events_of (call Date_parse this2 name2 revision2 reaction2) w
      /\ result_of (call Date_parse this2 name2 revision2 reaction2) w'
         = result_of (call Date_parse this2 name2 revision2 reaction2) w.
Proof.
  intros w'.
  destruct (call_preserves_store Date_parse this name revision reaction w)
    as [Hclients Hbakeries].
  split; [exact Hclients|split; [exact Hbakeries|split]].
  - destruct (call_frame Date_parse this name revision (clients w !! this))
      as (sent & _ & Hcall).
    destruct (Hcall reaction) as (res & invocations & Hrun).
    rewrite (events_of_extend _ _ _ _ (Hrun w eq_refl)).
    subst w'. unfold world_after. now rewrite (Hrun w eq_refl).
  - intros this2 name2 revision2 reaction2.
    apply call_depends_on_client. subst w'. now rewrite Hclients.
Qed.

End replies.

(* ===================================================================== *)
(** ** The theorems at the inputs of the test-suite *)
(* ===================================================================== *)

Lemma showTerms_request_path_witness :
  clients Tests.world !! Tests.this
  = Some (TermsClient.make "http://1.2.3.4/v1" Tests.bakery)
  /\ showTerms IsoDate.parse _makeRequest Tests.this "canonical" (VNumber (Int 0))
               observer Tests.world
     = _makeRequest Tests.bakery "http://1.2.3.4/v1/terms/canonical?revision=0"
                    "GET" VNull (handler IsoDate.parse observer) Tests.world.
Proof.
  split; [reflexivity|].
  exact (proj1 (proj2 (showTerms_request_path
                         IsoDate.parse _makeRequest Tests.world Tests.this
                         (TermsClient.make "http://1.2.3.4/v1" Tests.bakery)
                         "canonical" observer eq_refl))).
Defined.

Lemma showTerms_falsy_revision_witness :
  clients Tests.world !! Tests.this
  = Some (TermsClient.make "http://1.2.3.4/v1" Tests.bakery)
  /\ ToString (VString "") = Normal ""
  /\ showTerms IsoDate.parse _makeRequest Tests.this "canonical" (VString "")
               observer Tests.world
     = showTerms IsoDate.parse _makeRequest Tests.this "canonical" VNull
                 observer Tests.world.
Proof.
  split; [reflexivity|split; [reflexivity|]].
  exact (proj2 (proj1 (proj2 (showTerms_falsy_revision
                                IsoDate.parse _makeRequest Tests.world Tests.this
                                (TermsClient.make "http://1.2.3.4/v1" Tests.bakery)
                                "canonical" (VString "") observer "" eq_refl eq_refl))
                      (conj eq_refl eq_refl))).
Defined.

Lemma showTerms_empty_response_witness :
  clients Tests.world !! Tests.this
  = Some (TermsClient.make "http://1.2.3.4/v1" Tests.bakery)
  /\ ToString VNull = Normal "null"
  /\ events_of (call IsoDate.parse Tests.this "canonical" VNull
                     [Succeeds (VArray [])]) Tests.world
     = [SendGetRequest Tests.bakery "http://1.2.3.4/v1/terms/canonical";
        CallbackCalled VNull None].
Proof.
  split; [reflexivity|split; [reflexivity|]].
  exact (proj1 (proj2 (showTerms_empty_response
                         IsoDate.parse Tests.world Tests.this
                         (TermsClient.make "http://1.2.3.4/v1" Tests.bakery)
                         "canonical" VNull "null" eq_refl eq_refl))).
Defined.

Lemma showTerms_non_empty_response_witness :
  clients Tests.world !! Tests.this
  = Some (TermsClient.make "http://1.2.3.4/v1" Tests.bakery)
  /\ ToString (VNumber (Int 42)) = Normal "42"
  /\ Tests.canonical !! "created-on" = Some (VString "2016-06-09T22:07:24Z")
  /\ events_of (call IsoDate.parse Tests.this "canonical" (VNumber (Int 42))
                     [Succeeds (VArray [VObject Tests.canonical; VObject Tests.recent])])
               Tests.world
     = [SendGetRequest Tests.bakery "http://1.2.3.4/v1/terms/canonical?revision=42";
        CallbackCalled VNull (Some Tests.expected)].
Proof.
  split; [reflexivity|split; [reflexivity|split; [reflexivity|]]].
  exact (proj1 (proj2 (showTerms_non_empty_response
                         IsoDate.parse Tests.world Tests.this
                         (TermsClient.make "http://1.2.3.4/v1" Tests.bakery)
                         "canonical" (VNumber (Int 42)) "42"
                         Tests.canonical [VObject Tests.recent] "2016-06-09T22:07:24Z"
                         eq_refl eq_refl eq_refl))).
Defined.

Lemma showTerms_unparseable_created_on_witness :
  clients Tests.world !! Tests.this
  = Some (TermsClient.make "http://1.2.3.4/v1" Tests.bakery)
  /\ ToString VNull = Normal "null"
  /\ Tests.undated !! "created-on" = Some (VString "last Thursday")
  /\ IsoDate.parse "last Thursday" = NaN
  /\ exists data : TermsData.t,
      callbacks (events_of (call IsoDate.parse Tests.this "canonical" VNull
                                 [Succeeds (VArray [VObject Tests.undated])])
                           Tests.world)
      = [(VNull, Some data)]
      /\ TermsData.name data = VString "canonical"
      /\ is_invalid_date (TermsData.createdAt data).
Proof.
  split; [reflexivity|split; [reflexivity|split; [reflexivity|split; [reflexivity|]]]].
  destruct (showTerms_unparseable_created_on
              IsoDate.parse Tests.world Tests.this
              (TermsClient.make "http://1.2.3.4/v1" Tests.bakery)
              "canonical" VNull "null" Tests.undated [] "last Thursday"
              eq_refl eq_refl eq_refl eq_refl)
    as (data & Hname & _ & _ & _ & _ & Hinvalid & _ & Hcalls & _).
  exists data. split; [exact Hcalls|split; [exact Hname|exact Hinvalid]].
Defined.

Lemma showTerms_transport_failure_witness :
  clients Tests.world !! Tests.this
  = Some (TermsClient.make "http://1.2.3.4/v1" Tests.bakery)
  /\ ToString VNull = Normal "null"
  /\ Tests.bad_wolf !! "Message" = Some (VString "bad wolf")
  /\ events_of (call IsoDate.parse Tests.this "canonical" VNull
                     [Fails (VObject Tests.bad_wolf)]) Tests.world
     = [SendGetRequest Tests.bakery "http://1.2.3.4/v1/terms/canonical";
        CallbackCalled (VString "bad wolf") None].
Proof.
  split; [reflexivity|split; [reflexivity|split; [reflexivity|]]].
  exact (proj1 (showTerms_transport_failure
                  IsoDate.parse Tests.world Tests.this
                  (TermsClient.make "http://1.2.3.4/v1" Tests.bakery)
                  "canonical" VNull "null" Tests.bad_wolf "bad wolf"
                  eq_refl eq_refl eq_refl)).
Defined.

(* ===================================================================== *)
(** ** Outside the contract *)
(* ===================================================================== *)

Section outside.

Variable Date_parse : string -> JsNumber.

(** A [null] where the first term document should be makes the handler
    throw before it reaches the callback. *)
Remark handler_null_element (callback : Callback) (rest : list JsValue) (w : World) :
  handler Date_parse callback VNull (VArray (VNull :: rest)) w
  = (Throw (TypeError "Cannot read property 'created-on' of null"), w).
Proof. reflexivity. Qed.

(** A bakery that never answers leaves the callback uncalled, and one
    that answers twice has it called twice. *)
Remark callbacks_follow_the_bakery (w : World) (this : loc) (c : TermsClient.t)
       (name : string) :
  clients w !! this = Some c ->
  callbacks (events_of (call Date_parse this name VNull []) w) = []
  /\ callbacks (events_of (call Date_parse this name VNull
                                [Succeeds (VArray []); Succeeds (VArray [])]) w)
     = [(VNull, None); (VNull, None)].
Proof.
  intros Hc.
  assert (Hrun : forall reaction,
             call Date_parse this name VNull reaction w
             = match _makeRequest (TermsClient.bakery c)
                                  ((TermsClient.url c ++ "/terms/") ++ name)
                                  "GET" VNull (handler Date_parse observer) w with
               | (Normal p, w') => invoke_all p reaction w'
               | (Throw e, w') => (Throw e, w')
               end).
  { intros reaction. unfold call, mbind at 1, Exec_bind at 1.
    now rewrite (showTerms_delegates Date_parse _makeRequest w this c name VNull
                                     observer "null" Hc eq_refl). }
  unfold events_of, world_after. rewrite !Hrun. simpl.
  rewrite <- !app_assoc, !drop_app_length. split; reflexivity.
Qed.

End outside.

(* ===================================================================== *)
(** ** The test-suite of the client, replayed *)
(* ===================================================================== *)

Module Replay.
Import Tests.

Example exists_ :
  clients world !! this = Some (TermsClient.make "http://1.2.3.4/v1" bakery).
Proof. reflexivity. Qed.

Example handles_missing_trailing_slash :
  clients (world_after (terms this "http://1.2.3.4" bakery) empty_world) !! this
  = Some (TermsClient.make "http://1.2.3.4/v1" bakery).
Proof. reflexivity. Qed.

Example shows_terms_with_revision :
  events_of (call IsoDate.parse this "canonical" (VNumber (Int 42))
                  [Succeeds (VArray [VObject canonical])]) world
  = [SendGetRequest bakery "http://1.2.3.4/v1/terms/canonical?revision=42";
     CallbackCalled VNull (Some expected)].
Proof. vm_compute. reflexivity. Qed.

Example shows_most_recent_terms :
  events_of (call IsoDate.parse this "canonical" VNull
                  [Succeeds (VArray [VObject recent])]) world
  = [SendGetRequest bakery "http://1.2.3.4/v1/terms/canonical";
     CallbackCalled VNull
       (Some (TermsData.make (VString "canonical") (VString "canonical recent terms")
                             (VNumber (Int 47)) (VString "Terms and conditions")
                             (new_Date (Int 1465510044000))))].
Proof. vm_compute. reflexivity. Qed.

Example handles_missing_terms :
  callbacks (events_of (call IsoDate.parse this "canonical" VNull
                             [Succeeds (VArray [])]) world)
  = [(VNull, None)].
Proof. vm_compute. reflexivity. Qed.

Example handles_errors_fetching_terms :
  callbacks (events_of (call IsoDate.parse this "canonical" VNull
                             [Fails (VObject bad_wolf)]) world)
  = [(VString "bad wolf", None)].
Proof. vm_compute. reflexivity. Qed.

Example revision_zero_is_a_revision :
  requests (events_of (call IsoDate.parse this "canonical" (VNumber (Int 0)) []) world)
  = [(bakery, "http://1.2.3.4/v1/terms/canonical?revision=0")].
Proof. vm_compute. reflexivity. Qed.

Example revision_beyond_the_safe_integers :
  requests (events_of (call IsoDate.parse this "canonical"
                            (VNumber (Int (10 ^ 21))) []) world)
  = [(bakery, "http://1.2.3.4/v1/terms/canonical?revision=1e+21")]
  /\ requests (events_of (call IsoDate.parse this "canonical"
                               (VString (pretty (10 ^ 21)%Z)) []) world)
     = [(bakery, "http://1.2.3.4/v1/terms/canonical?revision=1000000000000000000000")].
Proof. split; vm_compute; reflexivity. Qed.

Example numbers_as_the_runtime_prints_them :
  Number_toString (Int (2 ^ 53 - 1)) = "9007199254740991"
  /\ Number_toString (Int (2 ^ 53 + 1)) = "9007199254740992"
  /\ Number_toString (Int (2 ^ 60)) = "1152921504606847000"
  /\ Number_toString (Int 123456789012345678901) = "123456789012345680000"
  /\ Number_toString (Int (- 10 ^ 21)) = "-1e+21"
  /\ Number_toString (Int (10 ^ 23)) = "1e+23"
  /\ Number_toString (Int 123456789012345678901234567890) = "1.2345678901234568e+29"
  /\ Number_toString (Int (2 ^ 1024)) = "Infinity".
Proof. repeat split; vm_compute; reflexivity. Qed.

Example doubled_separator_is_kept :
  replace_optional_slash_at_end "http://1.2.3.4//" "/" ++ termsAPIVersion
  = "http://1.2.3.4//v1".
Proof. reflexivity. Qed.

End Replay.

(* ===================================================================== *)
(** ** Construction and request together *)
(* ===================================================================== *)

Lemma without_trailing_separator_app (s : string) :
  without_trailing_separator (s ++ "/") = s.
Proof.
  induction s as [|c rest IH]; [reflexivity|].
  destruct rest as [|c' rest'].
  - reflexivity.
  - change (String c (without_trailing_separator (String c' rest' ++ "/"))
            = String c (String c' rest')).
    now rewrite IH.
Qed.

Lemma without_trailing_separator_id (s : string) :
  ends_with_separator s = false -> without_trailing_separator s = s.
Proof.
  intros H. pose proof (without_trailing_separator_stem s) as Hs.
  rewrite H in Hs. now symmetry.
Qed.

Section construction.

Context {R : Type}.
Variable Date_parse : string -> JsNumber.
Variable _makeRequest : loc -> string -> string -> JsValue -> Handler -> Exec R.

(** X1. A client built by [terms] and then asked for terms requests, from
    the bakery it was given, the base less its trailing separator followed
    by ['/v1/terms/'], the name and the query of the revision. *)
Theorem terms_then_showTerms (w : World) (this : loc) (base : string) (b : loc)
        (name : string) (revision : JsValue) (callback : Callback) (text : string) :
  ToString revision = Normal text ->
  let w' := world_after (terms this base b) w in
  showTerms Date_parse _makeRequest this name revision callback w'
  = _makeRequest b
      (without_trailing_separator base ++ "/v1/terms/" ++ name ++
       (if revision_supplied revision then "?revision=" ++ text else ""))
      "GET" VNull (handler Date_parse callback) w'.
Proof.
  intros Htext w'.
  assert (Hc : clients w' !! this
               = Some (TermsClient.make
                         (replace_optional_slash_at_end base "/" ++ termsAPIVersion) b)).
  { subst w'. unfold terms, put_client, world_after. simpl. apply lookup_insert_eq. }
  rewrite (showTerms_delegates Date_parse _makeRequest w' this _ name revision
                               callback text Hc Htext).
  simpl. rewrite replace_appends_separator, revision_supplied_test.
  unfold termsAPIVersion.
  destruct (strict_eq_zero revision || ToBoolean revision).
  - now rewrite !string_app_assoc.
  - now rewrite string_app_nil_r, !string_app_assoc.
Qed.

End construction.

(** X2. Writing the trailing separator of the base URL or leaving it out
    makes the same client exactly when the base does not already end in a
    separator: a second separator is not absorbed. *)
Theorem terms_trailing_separator (w : World) (this : loc) (base : string) (b : loc) :
  world_after (terms this (base ++ "/") b) w = world_after (terms this base b) w
  <-> ends_with_separator base = false.
Proof.
  unfold terms, put_client, world_after. simpl.
  rewrite !replace_appends_separator, without_trailing_separator_app.
  split.
  - intros H.
    assert (Hurl : Some (TermsClient.make ((base ++ "/") ++ termsAPIVersion) b)
                   = Some (TermsClient.make
                             ((without_trailing_separator base ++ "/") ++ termsAPIVersion)
                             b)).
    { rewrite <- (lookup_insert_eq (clients w) this
                    (TermsClient.make ((base ++ "/") ++ termsAPIVersion) b)).
      rewrite <- (lookup_insert_eq (clients w) this
                    (TermsClient.make
                       ((without_trailing_separator base ++ "/") ++ termsAPIVersion) b)).
      now injection H as ->. }
    injection Hurl as Hurl.
    destruct (ends_with_separator base) eqn:Hends; [|reflexivity].
    pose proof (without_trailing_separator_stem base) as Hstem. rewrite Hends in Hstem.
    rewrite Hstem in Hurl at 1. rewrite !string_app_assoc in Hurl.
    apply (inj (String.append (without_trailing_separator base))) in Hurl.
    discriminate Hurl.
  - intros Hends. now rewrite (without_trailing_separator_id base Hends).
Qed.

(** X3. [terms] writes the object it is run on and nothing else: the other
    clients, the bakeries and the trace are as before, no request is made,
    and of two constructions on the same object the later one stands. *)
Theorem terms_writes_only_this (w : World) (this : loc) (url : string) (b : loc) :
  let w' := world_after (terms this url b) w in
  result_of (terms this url b) w = Normal tt
  /\ delete this (clients w') = delete this (clients w)
  /\ bakeries w' = bakeries w
  /\ trace w' = trace w
  /\ forall (url2 : string) (b2 : loc),
      world_after (terms this url2 b2) w' = world_after (terms this url2 b2) w.
Proof.
  intros w'. subst w'. unfold terms, put_client, world_after, result_of. simpl.
  split; [reflexivity|split; [|split; [reflexivity|split; [reflexivity|]]]].
  - apply delete_insert_eq.
  - intros url2 b2. now rewrite insert_insert_eq.
Qed.

(* ===================================================================== *)
(** ** The handler on every input *)
(* ===================================================================== *)

Section handler_total.

Variable Date_parse : string -> JsNumber.

Lemma GetV_not_nullish (v : JsValue) (k : PropertyKey) :
  is_nullish v = false -> GetV v k = Normal (match GetV v k with
                                             | Normal x => x
                                             | Throw _ => VUndefined
                                             end).
Proof.
  intros Hv. destruct v; try discriminate Hv; simpl; repeat case_match; reflexivity.
Qed.

Lemma GetV_normal_not_nullish (v x : JsValue) (k : PropertyKey) :
  GetV v k = Normal x -> is_nullish v = false.
Proof. destruct v; try discriminate; reflexivity. Qed.

Lemma handler_lenient_first (first : JsValue) (rest : list JsValue)
      (created_on : JsValue) (text : string) (callback : Callback) (w : World) :
  GetV first (Named "created-on") = Normal created_on ->
  ToString created_on = Normal text ->
  handler Date_parse callback VNull (VArray (first :: rest)) w
  = callback VNull
      (Some (TermsData.make (property first "name") (property first "title")
                            (property first "revision") (property first "content")
                            (new_Date (Date_parse text)))) w.
Proof.
  intros Hget Htext.
  assert (Hprop : forall k, GetV first (Named k) = Normal (property first k)).
  { intros k. apply GetV_not_nullish. exact (GetV_normal_not_nullish _ _ _ Hget). }
  unfold handler, mbind, Exec_bind, lift. simpl.
  now rewrite Hget, Htext, !Hprop.
Qed.

Lemma handler_nullish_first (first : JsValue) (rest : list JsValue) :
  is_nullish first = true ->
  exists e, forall (callback : Callback) (w : World),
      handler Date_parse callback VNull (VArray (first :: rest)) w = (Throw e, w).
Proof.
  destruct first; try discriminate; intros _; eexists; intros callback w; reflexivity.
Qed.

Lemma handler_unconvertible_created_on (first : JsValue) (rest : list JsValue)
      (created_on : JsValue) (e : JsError) (callback : Callback) (w : World) :
  GetV first (Named "created-on") = Normal created_on ->
  ToString created_on = Throw e ->
  handler Date_parse callback VNull (VArray (first :: rest)) w = (Throw e, w).
Proof.
  intros Hget Htext.
  unfold handler, mbind, Exec_bind, lift. simpl.
  now rewrite Hget, Htext.
Qed.

(** X4. On every pair of arguments the handler does one of three things,
    the same for every callback and in every world: with an error that is
    not [null] (be it [undefined] or any other falsy value) it invokes the
    callback once with that error and [null], without reading the
    response; with a [null] error it either throws, leaving the world as it
    is and the callback uncalled, or invokes the callback once with a
    [null] error.  It never invokes the callback twice. *)
Theorem handler_once_or_throw (error response : JsValue) :
  (error <> VNull
   /\ forall (callback : Callback) (w : World),
       handler Date_parse callback error response w = callback error None w)
  \/ (error = VNull
      /\ ((exists e, forall (callback : Callback) (w : World),
              handler Date_parse callback error response w = (Throw e, w))
          \/ (exists data, forall (callback : Callback) (w : World),
                 handler Date_parse callback error response w
                 = callback VNull data w))).
Proof.
  destruct (decide (strict_eq_null error = true)) as [Hnull|Hnull].
  - right. destruct error; try discriminate Hnull. split; [reflexivity|].
    unfold handler, mbind, Exec_bind, lift. simpl.
    destruct (GetV response (Named "length")) as [len|e].
    2: { left. exists e. reflexivity. }
    destruct (ToBoolean len).
    2: { right. exists None. reflexivity. }
    simpl.
    destruct (GetV response (Index 0)) as [first|e].
    2: { left. exists e. reflexivity. }
    destruct (GetV first (Named "created-on")) as [created_on|e] eqn:Hget.
    2: { left. exists e. reflexivity. }
    destruct (ToString created_on) as [text|e].
    2: { left. exists e. reflexivity. }
    assert (Hprop : forall k, GetV first (Named k) = Normal (property first k)).
    { intros k. apply GetV_not_nullish. exact (GetV_normal_not_nullish _ _ _ Hget). }
    right. eexists. intros callback w. rewrite !Hprop. reflexivity.
  - left. split.
    + intros ->. now apply Hnull.
    + intros callback w. apply handler_error. intros ->. now apply Hnull.
Qed.

(** X5. The first element of the response need not be a term document.
    Whenever its ['created-on'] can be read and converted to a string (a
    number, an object without that field, a string, a nested array), the
    callback gets no error and an object whose fields are the properties of
    that element, [undefined] where it has none, and whose [createdAt] is
    the date parsed from the text of ['created-on']; for an object without
    ['created-on'] that text is ['undefined']. *)
Theorem handler_lenient (first : JsValue) (rest : list JsValue)
        (created_on : JsValue) (text : string) (callback : Callback) (w : World) :
  GetV first (Named "created-on") = Normal created_on ->
  ToString created_on = Normal text ->
  handler Date_parse callback VNull (VArray (first :: rest)) w
  = callback VNull
      (Some (TermsData.make (property first "name") (property first "title")
                            (property first "revision") (property first "content")
                            (new_Date (Date_parse text)))) w.
Proof.
  intros Hget Htext.
  exact (handler_lenient_first first rest created_on text callback w Hget Htext).
Qed.

(** X6. With a [null] error and an array as the response, the handler
    throws, and leaves the callback uncalled, exactly when the array is not
    empty and its first element is [null] or [undefined], or has a
    ['created-on'] that cannot be converted to a string. *)
Theorem handler_array_throws_iff (elems : list JsValue) :
  (exists e, forall (callback : Callback) (w : World),
        handler Date_parse callback VNull (VArray elems) w = (Throw e, w))
  <-> exists first rest,
      elems = first :: rest
      /\ (is_nullish first = true
          \/ exists created_on e,
            GetV first (Named "created-on") = Normal created_on
            /\ ToString created_on = Throw e).
Proof.
  split.
  - intros [e He].
    assert (Hobs : forall error data,
               observer error data (mkWorld ∅ ∅ []) <> (Throw e, mkWorld ∅ ∅ [])).
    { intros error data. discriminate. }
    specialize (He observer (mkWorld ∅ ∅ [])).
    destruct elems as [|first rest].
    { exfalso. exact (Hobs VNull None He). }
    exists first, rest. split; [reflexivity|].
    destruct (is_nullish first) eqn:Hfirst; [now left|right].
    pose proof (GetV_not_nullish first (Named "created-on") Hfirst) as Hget.
    set (created_on := match GetV first (Named "created-on") with
                       | Normal x => x
                       | Throw _ => VUndefined
                       end) in Hget.
    exists created_on.
    destruct (ToString created_on) as [text|e'] eqn:Htext.
    + exfalso.
      rewrite (handler_lenient_first first rest created_on text observer _ Hget Htext)
        in He.
      exact (Hobs _ _ He).
    + exists e'. now split.
  - intros (first & rest & -> & [Hnull|(created_on & e & Hget & Htext)]).
    + exact (handler_nullish_first first rest Hnull).
    + exists e. intros callback w.
      exact (handler_unconvertible_created_on first rest created_on e callback w
                                              Hget Htext).
Qed.

End handler_total.

(* ===================================================================== *)
(** ** One call, whatever the reply *)
(* ===================================================================== *)

Section any_reply.

Variable Date_parse : string -> JsNumber.

(** The handler either invokes the callback, as the last thing it does,
    or throws before it gets there. *)
Lemma handler_calls_back_or_throws (error response : JsValue) :
  (exists e data, forall (callback : Callback) (w : World),
        handler Date_parse callback error response w = callback e data w)
  \/ (exists err, forall (callback : Callback) (w : World),
         handler Date_parse callback error response w = (Throw err, w)).
Proof.
  destruct (strict_eq_null error) eqn:Hnull.
  - destruct error; try discriminate Hnull.
    unfold handler, mbind, Exec_bind, lift. simpl.
    destruct (GetV response (Named "length")) as [len|err].
    2: { right. exists err. reflexivity. }
    destruct (ToBoolean len).
    2: { left. exists VNull, None. reflexivity. }
    simpl.
    destruct (GetV response (Index 0)) as [first|err].
    2: { right. exists err. reflexivity. }
    destruct (GetV first (Named "created-on")) as [created_on|err] eqn:Hget.
    2: { right. exists err. reflexivity. }
    destruct (ToString created_on) as [text|err].
    2: { right. exists err. reflexivity. }
    assert (Hprop : forall k, GetV first (Named k) = Normal (property first k)).
    { intros k. apply GetV_not_nullish. exact (GetV_normal_not_nullish _ _ _ Hget). }
    left. eexists _, _. intros callback w. rewrite !Hprop. reflexivity.
  - left. exists error, None. intros callback w.
    apply handler_error. intros ->. discriminate Hnull.
Qed.

(** The two continuations [showTerms] hands to the bakery. *)
Lemma call_one_reply (w : World) (this : loc) (c : TermsClient.t)
      (name : string) (revision : JsValue) (text : string) (r : Reply) :
  clients w !! this = Some c ->
  ToString revision = Normal text ->
  call Date_parse this name revision [r] w
  = invoke_all
      (mkPending
         (fun decoded => handler Date_parse observer VNull decoded)
         (fun decoded =>
            upper ← lift (GetV decoded (Named "Message"));
            message ← (match upper with
                       | VUndefined => lift (GetV decoded (Named "message"))
                       | _ => mret upper
                       end);
            handler Date_parse observer message decoded))
      [r]
      (extend w [SendGetRequest (TermsClient.bakery c)
                                (terms_path (TermsClient.url c) name revision text)]).
Proof.
  intros Hc Htext. unfold call, mbind at 1, Exec_bind at 1.
  rewrite (showTerms_delegates Date_parse _makeRequest w this c name revision
                               observer text Hc Htext).
  rewrite delegated_path. reflexivity.
Qed.

Lemma observed (error : JsValue) (data : option TermsData.t) (w : World) :
  (observer error data;; mret tt) w = (Normal tt, extend w [CallbackCalled error data]).
Proof. reflexivity. Qed.

(** One call answered once: the request, and then one invocation of the
    callback or an exception. *)
Lemma call_once_or_throws (w : World) (this : loc) (c : TermsClient.t)
      (name : string) (revision : JsValue) (text : string) (r : Reply) :
  clients w !! this = Some c ->
  ToString revision = Normal text ->
  let sent := SendGetRequest (TermsClient.bakery c)
                             (terms_path (TermsClient.url c) name revision text) in
  (exists e data,
      call Date_parse this name revision [r] w
      = (Normal tt, extend w [sent; CallbackCalled e data]))
  \/ (exists err,
         call Date_parse this name revision [r] w = (Throw err, extend w [sent])).
Proof.
  intros Hc Htext sent.
  rewrite (call_one_reply w this c name revision text r Hc Htext). fold sent.
  assert (Hhandler : forall error response,
             (exists e data,
                 (handler Date_parse observer error response;; mret tt) (extend w [sent])
                 = (Normal tt, extend w [sent; CallbackCalled e data]))
             \/ (exists err,
                    (handler Date_parse observer error response;; mret tt)
                      (extend w [sent])
                    = (Throw err, extend w [sent]))).
  { intros error response.
    destruct (handler_calls_back_or_throws error response)
      as [(e & data & H)|(err & H)].
    - left. exists e, data. unfold mbind at 1, Exec_bind at 1. rewrite H.
      etransitivity; [exact (observed e data (extend w [sent]))|].
      now rewrite extend_extend.
    - right. exists err. unfold mbind at 1, Exec_bind at 1. now rewrite H. }
  destruct r as [decoded|decoded].
  - exact (Hhandler VNull decoded).
  - set (p := mkPending _ _). set (w1 := extend w [sent]) in *.
    assert (Hm : (exists m, invoke_all p [Fails decoded] w1
                            = (handler Date_parse observer m decoded;; mret tt) w1)
                 \/ (exists err, invoke_all p [Fails decoded] w1 = (Throw err, w1))).
    { destruct (GetV decoded (Named "Message")) as [upper|err] eqn:Hupper.
      2: { right. exists err. unfold invoke_all, invoke. cbn [failure p].
           unfold mbind, Exec_bind, lift. now rewrite Hupper. }
      destruct upper as [| |b|n|s|props|elems].
      1: { destruct (GetV decoded (Named "message")) as [lower|err] eqn:Hlower;
             [left; exists lower|right; exists err];
             unfold invoke_all, invoke; cbn [failure p];
             unfold mbind, Exec_bind, lift; now rewrite Hupper, Hlower. }
      all: left; eexists; unfold invoke_all, invoke; cbn [failure p];
        unfold mbind, Exec_bind, lift; rewrite Hupper; reflexivity. }
    destruct Hm as [[m ->]|[err ->]].
    + exact (Hhandler m decoded).
    + right. now exists err.
Qed.

(** C6, amended. When the bakery invokes exactly one continuation
    exactly once, whatever the reply, the callback is invoked at most
    once: exactly once when the call completes, and not at all when an
    exception is thrown on the way.  It is invoked exactly once, with
    the invocation of the path the reply calls for (failure, empty
    response or non-empty response), when the reply has the agreed form.
    For a success that carries an array it is not invoked at all exactly
    when the array is not empty and its first element is [null] or
    [undefined], or has a ['created-on'] that cannot be converted to a
    string.  The handler itself, for every callback, invokes the callback
    as the last thing it does, or throws and leaves it uncalled. *)
Theorem showTerms_calls_back_once (w : World) (this : loc) (c : TermsClient.t)
        (name : string) (revision : JsValue) (text : string) (r : Reply) :
  clients w !! this = Some c ->
  ToString revision = Normal text ->
  let evs := events_of (call Date_parse this name revision [r]) w in
  let res := result_of (call Date_parse this name revision [r]) w in
  ((called_back_once evs /\ res = Normal tt)
   \/ (callbacks evs = [] /\ exists err, res = Throw err))
  /\ (well_formed r = true ->
      exists invocation : JsValue * option TermsData.t,
        callbacks evs = [invocation]
        /\ path_of_callback invocation = Some (path_of_reply r)
        /\ res = Normal tt)
  /\ (forall elems : list JsValue,
         r = Succeeds (VArray elems) ->
         callbacks evs = []
         <-> exists first rest,
             elems = first :: rest
             /\ (is_nullish first = true
                 \/ exists created_on err,
                   GetV first (Named "created-on") = Normal created_on
                   /\ ToString created_on = Throw err))
  /\ (forall (callback : Callback) (error response : JsValue) (w' : World),
         (exists e data,
             handler Date_parse callback error response w' = callback e data w')
         \/ (exists err,
                handler Date_parse callback error response w' = (Throw err, w'))).
Proof.
  intros Hc Htext evs res.
  pose proof (call_once_or_throws w this c name revision text r Hc Htext) as Honce.
  simpl in Honce.
  assert (Hcases :
            (exists e data, evs = [SendGetRequest (TermsClient.bakery c)
                                     (terms_path (TermsClient.url c) name revision text);
                                   CallbackCalled e data]
                            /\ res = Normal tt)
            \/ (evs = [SendGetRequest (TermsClient.bakery c)
                         (terms_path (TermsClient.url c) name revision text)]
                /\ exists err, res = Throw err)).
  { destruct Honce as [(e & data & H)|(err & H)].
    - left. exists e, data. split.
      + exact (events_of_extend _ _ _ _ H).
      + unfold res, result_of. now rewrite H.
    - right. split.
      + exact (events_of_extend _ _ _ _ H).
      + exists err. unfold res, result_of. now rewrite H. }
  split; [|split; [|split]].
  - destruct Hcases as [(e & data & -> & Hres)|(-> & Hres)].
    + left. split; [now exists (e, data)|exact Hres].
    + right. split; [reflexivity|exact Hres].
  - intros Hwf.
    destruct (call_answered_once Date_parse w this c name revision text Hc Htext)
      as (Hfail & Hempty & Hfirst).
    destruct r as [decoded|decoded].
    + destruct decoded as [| |b|n|s|props|elems]; try discriminate Hwf.
      destruct elems as [|first rest].
      * exists (VNull, None). unfold evs, res, result_of.
        rewrite (events_of_extend _ _ _ _ Hempty), Hempty.
        repeat split; reflexivity.
      * destruct first as [| |b|n|s|props|elems]; try discriminate Hwf.
        simpl in Hwf.
        destruct (props !! "created-on") as [[| |b|n|created|props'|elems]|] eqn:Hcreated;
          try discriminate Hwf.
        exists (VNull, Some (record props (Date_parse created))).
        unfold evs, res, result_of.
        rewrite (events_of_extend _ _ _ _ (Hfirst props rest created Hcreated)).
        rewrite (Hfirst props rest created Hcreated).
        repeat split; reflexivity.
    + destruct decoded as [| |b|n|s|props|elems]; try discriminate Hwf.
      simpl in Hwf.
      destruct (props !! "Message") as [[| |b|n|message|props'|elems]|] eqn:Hm;
        try discriminate Hwf.
      exists (VString message, None). unfold evs, res, result_of.
      rewrite (events_of_extend _ _ _ _ (Hfail props message Hm)).
      rewrite (Hfail props message Hm).
      repeat split; reflexivity.
  - intros elems ->.
    assert (Hrun : call Date_parse this name revision [Succeeds (VArray elems)] w
                   = (handler Date_parse observer VNull (VArray elems);; mret tt)
                       (extend w [SendGetRequest (TermsClient.bakery c)
                                    (terms_path (TermsClient.url c) name revision text)])).
    { now rewrite (call_one_reply w this c name revision text _ Hc Htext). }
    assert (Hcalled : forall data,
               (forall w' : World,
                   handler Date_parse observer VNull (VArray elems) w'
                   = observer VNull data w') ->
               callbacks evs <> []).
    { intros data Hhandler. unfold evs.
      unfold mbind at 1, Exec_bind at 1 in Hrun. rewrite Hhandler in Hrun.
      change (call Date_parse this name revision [Succeeds (VArray elems)] w
              = (Normal tt,
                 extend (extend w [SendGetRequest (TermsClient.bakery c)
                                     (terms_path (TermsClient.url c) name revision text)])
                        [CallbackCalled VNull data])) in Hrun.
      rewrite extend_extend in Hrun.
      rewrite (events_of_extend _ _ _ _ Hrun). discriminate. }
    assert (Hthrown : forall err,
               (forall (callback : Callback) (w' : World),
                   handler Date_parse callback VNull (VArray elems) w' = (Throw err, w')) ->
               callbacks evs = []).
    { intros err Hhandler. unfold evs.
      unfold mbind at 1, Exec_bind at 1 in Hrun. rewrite Hhandler in Hrun.
      now rewrite (events_of_extend _ _ _ _ Hrun). }
    split.
    + intros Hnone.
      destruct elems as [|first rest].
      { exfalso. exact (Hcalled None (fun w' => eq_refl) Hnone). }
      exists first, rest. split; [reflexivity|].
      destruct (is_nullish first) eqn:Hfirst; [now left|right].
      pose proof (GetV_not_nullish first (Named "created-on") Hfirst) as Hget.
      set (created_on := match GetV first (Named "created-on") with
                         | Normal x => x
                         | Throw _ => VUndefined
                         end) in Hget.
      exists created_on.
      destruct (ToString created_on) as [text'|err] eqn:Htext'.
      * exfalso. refine (Hcalled _ _ Hnone). intros w'.
        exact (handler_lenient_first Date_parse first rest created_on text' observer w'
                                     Hget Htext').
      * exists err. now split.
    + intros (first & rest & -> & [Hnull|(created_on & err & Hget & Htext')]).
      * destruct (handler_nullish_first Date_parse first rest Hnull) as [err Herr].
        exact (Hthrown err Herr).
      * apply (Hthrown err). intros callback w'.
        exact (handler_unconvertible_created_on Date_parse first rest created_on err
                                                callback w' Hget Htext').
  - intros callback error response w'.
    destruct (handler_calls_back_or_throws error response)
      as [(e & data & H)|(err & H)].
    + left. exists e, data. apply H.
    + right. exists err. apply H.
Qed.

End any_reply.

(** C6 as the specification states it fails for a success whose array
    holds [null]: the continuation is invoked exactly once, the handler
    throws on the first property it reads, and the callback is never
    invoked. *)
Lemma showTerms_null_element_calls_back_never :
  callbacks (events_of (call IsoDate.parse Tests.this "canonical" VNull
                             [Succeeds (VArray [VNull])]) Tests.world)
  = []
  /\ result_of (call IsoDate.parse Tests.this "canonical" VNull
                     [Succeeds (VArray [VNull])]) Tests.world
     = Throw (TypeError "Cannot read property 'created-on' of null")
  /\ ~ called_back_once (events_of (call IsoDate.parse Tests.this "canonical" VNull
                                        [Succeeds (VArray [VNull])]) Tests.world).
Proof.
  split; [vm_compute; reflexivity|split; [vm_compute; reflexivity|]].
  intros [invocation Hcalls]. vm_compute in Hcalls. discriminate Hcalls.
Qed.

Lemma showTerms_calls_back_once_witness :
  clients Tests.world !! Tests.this
  = Some (TermsClient.make "http://1.2.3.4/v1" Tests.bakery)
  /\ ToString (VNumber (Int 42)) = Normal "42"
  /\ well_formed (Succeeds (VArray [VObject Tests.canonical])) = true
  /\ exists invocation : JsValue * option TermsData.t,
      callbacks (events_of (call IsoDate.parse Tests.this "canonical" (VNumber (Int 42))
                                 [Succeeds (VArray [VObject Tests.canonical])])
                           Tests.world)
      = [invocation]
      /\ path_of_callback invocation = Some NonEmptyResponsePath.
Proof.
  split; [reflexivity|split; [reflexivity|split; [reflexivity|]]].
  destruct (showTerms_calls_back_once
              IsoDate.parse Tests.world Tests.this
              (TermsClient.make "http://1.2.3.4/v1" Tests.bakery)
              "canonical" (VNumber (Int 42)) "42"
              (Succeeds (VArray [VObject Tests.canonical]))
              eq_refl eq_refl)
    as (_ & Hformed & _).
  destruct (Hformed eq_refl) as (invocation & Hcalls & Hpath & _).
  exists invocation. split; [exact Hcalls|exact Hpath].
Defined.

(* ===================================================================== *)
(** ** More on the request *)
(* ===================================================================== *)

Lemma pretty_N_go_not_empty (x : N) (s : string) :
  s <> "" -> pretty_N_go x s <> "".
Proof.
  revert s. induction (N.lt_wf_0 x) as [x _ IH]; intros s Hs.
  destruct (decide (x = 0)%N) as [->|Hx].
  - now rewrite pretty_N_go_0.
  - rewrite pretty_N_go_step by lia. apply IH.
    + apply N.div_lt; lia.
    + discriminate.
Qed.

Lemma pretty_N_not_empty (x : N) : pretty x <> "".
Proof.
  unfold pretty, pretty_N. destruct (decide (x = 0)%N) as [->|Hx]; [discriminate|].
  rewrite pretty_N_go_step by lia. apply pretty_N_go_not_empty. discriminate.
Qed.


Lemma not_empty_truthy (s : string) : s <> "" -> ToBoolean (VString s) = true.
Proof. intros Hs. destruct s; [now contradiction Hs|reflexivity]. Qed.


Section more_requests.

Context {R : Type}.
Variable Date_parse : string -> JsNumber.
Variable _makeRequest : loc -> string -> string -> JsValue -> Handler -> Exec R.


(** X8. The name goes into the path as it is, unescaped: a name that ends
    like a query string, with no revision, makes the request that the
    name before it makes with that revision. *)
Theorem showTerms_name_not_escaped (w : World) (this : loc) (name text : string)
        (callback : Callback) :
  text <> "" ->
  showTerms Date_parse _makeRequest this (name ++ "?revision=" ++ text) VNull callback w
  = showTerms Date_parse _makeRequest this name (VString text) callback w.
Proof.
  intros Htext. unfold showTerms.
  assert (Hs : strict_eq_zero (VString text) || ToBoolean (VString text) = true).
  { now rewrite (not_empty_truthy _ Htext). }
  rewrite Hs. simpl.
  unfold mbind, Exec_bind, get_client, lift, mret, Exec_ret.
  destruct (clients w !! this) as [c|]; [|reflexivity].
  now rewrite !string_app_assoc.
Qed.

End more_requests.

(* ===================================================================== *)
(** ** A bakery that answers any number of times *)
(* ===================================================================== *)

Section many_replies.

Variable Date_parse : string -> JsNumber.

Lemma invoke_well_formed (p : Pending) (r : Reply) :
  (forall decoded, success p decoded = handler Date_parse observer VNull decoded) ->
  (forall props message,
      props !! "Message" = Some (VString message) ->
      forall w, failure p (VObject props) w
                = handler Date_parse observer (VString message) (VObject props) w) ->
  well_formed r = true ->
  exists invocation,
    path_of_callback invocation = Some (path_of_reply r)
    /\ forall w, invoke p r w = (Normal tt, extend w [invocation_event invocation]).
Proof.
  intros Hs Hf Hwf. destruct r as [decoded|decoded].
  - destruct decoded as [| |b|n|s|props|elems]; try discriminate Hwf.
    destruct elems as [|first rest].
    + exists (VNull, None). split; [reflexivity|]. intros w. simpl. now rewrite Hs.
    + destruct first as [| |b|n|s|props|elems]; try discriminate Hwf.
      simpl in Hwf.
      destruct (props !! "created-on") as [[| |b|n|created|props'|elems]|] eqn:Hcreated;
        try discriminate Hwf.
      exists (VNull, Some (record props (Date_parse created))).
      split; [reflexivity|]. intros w. simpl. rewrite Hs.
      now rewrite (handler_first_element Date_parse observer props rest created w Hcreated).
  - destruct decoded as [| |b|n|s|props|elems]; try discriminate Hwf.
    simpl in Hwf.
    destruct (props !! "Message") as [[| |b|n|message|props'|elems]|] eqn:Hm;
      try discriminate Hwf.
    exists (VString message, None). split; [reflexivity|]. intros w. simpl.
    now rewrite (Hf props message Hm w).
Qed.

Lemma invoke_all_well_formed (p : Pending) (reaction : list Reply) :
  (forall decoded, success p decoded = handler Date_parse observer VNull decoded) ->
  (forall props message,
      props !! "Message" = Some (VString message) ->
      forall w, failure p (VObject props) w
                = handler Date_parse observer (VString message) (VObject props) w) ->
  forallb well_formed reaction = true ->
  exists invocations,
    Forall2 (fun r invocation => path_of_callback invocation = Some (path_of_reply r))
            reaction invocations
    /\ forall w, invoke_all p reaction w
                 = (Normal tt, extend w (invocation_event <$> invocations)).
Proof.
  intros Hs Hf. induction reaction as [|r rs IH]; intros Hwf.
  - exists []. split; [constructor|]. intros w. simpl. now rewrite extend_nil.
  - simpl in Hwf. apply andb_true_iff in Hwf as [Hr Hrs].
    destruct (invoke_well_formed p r Hs Hf Hr) as (invocation & Hpath & Hrun).
    destruct (IH Hrs) as (invocations & Hpaths & Hruns).
    exists (invocation :: invocations). split; [now constructor|].
    intros w. simpl. unfold mbind, Exec_bind.
    now rewrite Hrun, Hruns, extend_extend.
Qed.

(** X9. However often the bakery invokes the continuations, with replies
    of the agreed form, a call makes one request, before anything else, and
    then invokes the callback once for each reply, in their order and each
    time on the path the reply calls for: never for a bakery that does not
    answer, twice for one that answers twice. *)
Theorem showTerms_calls_back_per_reply (w : World) (this : loc) (c : TermsClient.t)
        (name : string) (revision : JsValue) (text : string) (reaction : list Reply) :
  clients w !! this = Some c ->
  ToString revision = Normal text ->
  forallb well_formed reaction = true ->
  let evs := events_of (call Date_parse this name revision reaction) w in
  evs = SendGetRequest (TermsClient.bakery c)
                       (terms_path (TermsClient.url c) name revision text)
        :: (invocation_event <$> callbacks evs)
  /\ length (callbacks evs) = length reaction
  /\ Forall2 (fun r invocation => path_of_callback invocation = Some (path_of_reply r))
             reaction (callbacks evs)
  /\ result_of (call Date_parse this name revision reaction) w = Normal tt.
Proof.
  intros Hc Htext Hwf evs.
  set (sent := SendGetRequest (TermsClient.bakery c)
                              (terms_path (TermsClient.url c) name revision text)).
  destruct (makeRequest_pending Date_parse (TermsClient.bakery c)
              (terms_path (TermsClient.url c) name revision text))
    as (p & Hp & Hs & _ & Hf).
  destruct (invoke_all_well_formed p reaction Hs Hf Hwf) as (invocations & Hpaths & Hruns).
  assert (Hcall : call Date_parse this name revision reaction w
                  = (Normal tt, extend w (sent :: (invocation_event <$> invocations)))).
  { unfold call, mbind, Exec_bind.
    rewrite (showTerms_delegates Date_parse _makeRequest w this c name revision
                                 observer text Hc Htext).
    rewrite delegated_path, Hp, Hruns. now rewrite extend_extend. }
  assert (Hevs : evs = sent :: (invocation_event <$> invocations)).
  { exact (events_of_extend _ _ _ _ Hcall). }
  assert (Hcbs : callbacks evs = invocations).
  { rewrite Hevs. exact (callbacks_invocations invocations). }
  rewrite Hcbs. split; [exact Hevs|split; [|split; [exact Hpaths|]]].
  - symmetry. exact (Forall2_length _ _ _ Hpaths).
  - unfold result_of. now rewrite Hcall.
Qed.

End many_replies.

(* ===================================================================== *)
(** ** The linter: which lines define a function *)
(* ===================================================================== *)

Section function_lines.
Import Py LintYuidoc Lines.

Lemma app_String (c : ascii) (s t : string) : String c s ++ t = String c (s ++ t).
Proof. reflexivity. Qed.

Lemma span_app (p : ascii -> bool) (s t : string) :
  all_chars p s = true -> stops p t = true -> span p (s ++ t) = (s, t).
Proof.
  induction s as [|c s IH]; intros Hs Ht.
  - change ("" ++ t) with t. destruct t as [|c t]; [reflexivity|].
    simpl in *. now destruct (p c).
  - simpl in Hs. apply andb_true_iff in Hs as [Hc Hs].
    rewrite app_String. simpl. rewrite Hc, (IH Hs Ht). reflexivity.
Qed.

Lemma after_app (prefix s : string) : after prefix (prefix ++ s) = Some s.
Proof.
  induction prefix as [|c prefix IH]; [reflexivity|].
  rewrite app_String. simpl. now rewrite Ascii.eqb_refl.
Qed.

Lemma stops_app (p : ascii -> bool) (s t : string) :
  s <> "" -> stops p s = true -> stops p (s ++ t) = true.
Proof. destruct s; [now intros []|intros _ H; exact H]. Qed.

Lemma identifier_starts (name : string) :
  is_identifier name = true ->
  exists c rest, name = String c rest /\ is_word c = true /\ all_chars is_word name = true.
Proof.
  unfold is_identifier. intros H. apply andb_true_iff in H as [Hne Hall].
  destruct name as [|c rest]; [discriminate Hne|].
  exists c, rest. split; [reflexivity|split; [|exact Hall]].
  simpl in Hall. now apply andb_true_iff in Hall as [Hc _].
Qed.

Lemma word_is_no_space (c : ascii) : is_word c = true -> is_space c = false.
Proof.
  intros Hc. unfold is_space.
  destruct (Ascii.eqb_spec c " "%char) as [->|]; [discriminate Hc|reflexivity].
Qed.

Lemma word_is_no_separator (c : ascii) :
  is_word c = true -> Ascii.eqb c ":"%char || Ascii.eqb c "="%char = false.
Proof.
  intros Hc.
  destruct (Ascii.eqb_spec c ":"%char) as [->|]; [discriminate Hc|].
  destruct (Ascii.eqb_spec c "="%char) as [->|]; [discriminate Hc|reflexivity].
Qed.

Lemma opens_parenthesis_app (spaces rest : string) :
  is_spaces spaces = true -> opens_parenthesis (spaces ++ String "("%char rest) = true.
Proof.
  intros Hs. unfold opens_parenthesis.
  now rewrite (span_app is_space spaces (String "("%char rest) Hs eq_refl).
Qed.

Lemma spaces_stop_word (s t : string) :
  is_spaces s = true -> stops is_word t = true -> stops is_word (s ++ t) = true.
Proof.
  intros Hs Ht. destruct s as [|d s']; [exact Ht|].
  rewrite app_String. simpl. simpl in Hs.
  apply andb_true_iff in Hs as [Hd _].
  unfold is_space in Hd. apply Ascii.eqb_eq in Hd as ->. reflexivity.
Qed.

Lemma identifier_stops_space (name rest : string) :
  is_identifier name = true -> stops is_space (name ++ rest) = true.
Proof.
  intros Hname. destruct (identifier_starts name Hname) as (c & name' & -> & Hc & _).
  rewrite app_String. simpl. now rewrite (word_is_no_space c Hc).
Qed.

Ltac take_span H :=
  rewrite span_app by first [exact H | assumption | reflexivity].

(** X10. A line that assigns a function to a name, [name: function(] or
    [name = function(], is taken for a definition of [name], however it is
    indented and spaced. *)
Theorem function_regex_matches_assignment (indent name s1 s2 s3 rest : string)
        (separator : ascii) :
  is_spaces indent = true ->
  is_identifier name = true ->
  is_spaces s1 = true -> is_spaces s2 = true -> is_spaces s3 = true ->
  separator = ":"%char \/ separator = "="%char ->
  function_regex_match
    (indent ++ name ++ s1 ++ String separator (s2 ++ "function" ++ s3
                                                 ++ String "("%char rest))
  = Some name.
Proof.
  intros Hindent Hname Hs1 Hs2 Hs3 Hsep.
  destruct (identifier_starts name Hname) as (c & name' & Hcons & Hc & Hall).
  set (tail := s2 ++ "function" ++ s3 ++ String "("%char rest).
  assert (Hsepw : stops is_word (String separator tail) = true)
    by (destruct Hsep as [-> | ->]; reflexivity).
  assert (Hseps : stops is_space (String separator tail) = true)
    by (destruct Hsep as [-> | ->]; reflexivity).
  assert (Hsepb : Ascii.eqb separator ":"%char || Ascii.eqb separator "="%char = true)
    by (destruct Hsep as [-> | ->]; reflexivity).
  pose proof (identifier_stops_space name (s1 ++ String separator tail) Hname) as H1.
  pose proof (spaces_stop_word s1 (String separator tail) Hs1 Hsepw) as H2.
  assert (H3 : stops is_space ("function" ++ s3 ++ String "("%char rest) = true)
    by reflexivity.
  unfold function_regex_match.
  take_span Hindent. cbn [snd fst]. unfold assigned_function.
  take_span Hall. rewrite Hcons at 1.
  take_span Hs1. cbn [snd fst]. rewrite Hsepb. subst tail.
  take_span Hs2. cbn [snd fst].
  rewrite after_app, (opens_parenthesis_app s3 rest Hs3). reflexivity.
Qed.

(** X11. A line that declares a function, [function name(], is taken for
    a definition of [name], however it is indented and spaced. *)
Theorem function_regex_matches_declaration (indent s1 name s2 rest : string) :
  is_spaces indent = true ->
  is_spaces s1 = true -> s1 <> "" ->
  is_identifier name = true ->
  is_spaces s2 = true ->
  function_regex_match
    (indent ++ "function" ++ s1 ++ name ++ s2 ++ String "("%char rest)
  = Some name.
Proof.
  intros Hindent Hs1 Hne Hname Hs2.
  destruct (identifier_starts name Hname) as (c & name' & Hcons & Hc & Hall).
  pose proof (identifier_stops_space name (s2 ++ String "("%char rest) Hname) as Hnext.
  assert (H0 : stops is_space ("function" ++ s1 ++ name ++ s2 ++ String "("%char rest)
               = true) by reflexivity.
  assert (H1 : stops is_word (s1 ++ name ++ s2 ++ String "("%char rest) = true).
  { destruct s1 as [|d s1']; [now contradiction Hne|].
    rewrite app_String. simpl. simpl in Hs1.
    apply andb_true_iff in Hs1 as [Hd _].
    unfold is_space in Hd. apply Ascii.eqb_eq in Hd as ->. reflexivity. }
  assert (H2 : stops is_word (s2 ++ String "("%char rest) = true)
    by (apply spaces_stop_word; [exact Hs2|reflexivity]).
  assert (Hfunction : all_chars is_word "function" = true) by reflexivity.
  unfold function_regex_match.
  take_span Hindent. cbn [snd fst].
  assert (Hassigned : assigned_function
                        ("function" ++ s1 ++ name ++ s2 ++ String "("%char rest) = None).
  { unfold assigned_function.
    take_span Hfunction. take_span Hs1. cbn [snd fst].
    rewrite Hcons, app_String. now rewrite (word_is_no_separator c Hc). }
  rewrite Hassigned. unfold declared_function.
  rewrite after_app.
  take_span Hs1. take_span Hall.
  destruct s1 as [|d s1']; [now contradiction Hne|].
  rewrite Hcons at 1. now rewrite (opens_parenthesis_app s2 rest Hs2).
Qed.

(** X12. A function without a name of its own is not taken for a
    definition: neither a function expression, [function(], nor a
    function assigned in a [var] statement, [var name = function(]. *)
Theorem function_regex_misses_anonymous (indent s1 name rest : string) :
  is_spaces indent = true ->
  is_spaces s1 = true ->
  is_identifier name = true ->
  function_regex_match (indent ++ "function" ++ s1 ++ String "("%char rest) = None
  /\ function_regex_match (indent ++ "var " ++ s1 ++ name ++ rest) = None.
Proof.
  intros Hindent Hs1 Hname.
  destruct (identifier_starts name Hname) as (c & name' & Hcons & Hc & Hall).
  assert (Hfunction : all_chars is_word "function" = true) by reflexivity.
  assert (Hvar : all_chars is_word "var" = true) by reflexivity.
  assert (H0 : stops is_space ("function" ++ s1 ++ String "("%char rest) = true)
    by reflexivity.
  assert (H1 : stops is_word (s1 ++ String "("%char rest) = true)
    by (apply spaces_stop_word; [exact Hs1|reflexivity]).
  assert (H2 : stops is_space (String "("%char rest) = true) by reflexivity.
  assert (H3 : stops is_space ("var " ++ s1 ++ name ++ rest) = true) by reflexivity.
  assert (H4 : stops is_word (String " "%char s1 ++ name ++ rest) = true) by reflexivity.
  pose proof (identifier_stops_space name rest Hname) as H5.
  assert (Hsp : is_spaces (String " "%char s1) = true) by exact Hs1.
  unfold function_regex_match. split.
  - take_span Hindent. cbn [snd fst].
    unfold assigned_function, declared_function.
    take_span Hfunction. take_span Hs1. cbn [snd fst].
    rewrite after_app. take_span Hs1.
    destruct s1; reflexivity.
  - take_span Hindent. cbn [snd fst].
    unfold assigned_function, declared_function.
    change ("var " ++ s1 ++ name ++ rest)
      with ("var" ++ String " "%char s1 ++ name ++ rest).
    take_span Hvar. take_span Hsp. cbn [snd fst].
    rewrite Hcons, app_String. now rewrite (word_is_no_separator c Hc).
Qed.

End function_lines.

Section found_functions.
Import Py LintYuidoc Lines.

Lemma span_all_chars (p : ascii -> bool) (s : string) :
  all_chars p (fst (span p s)) = true.
Proof.
  induction s as [|c s IH]; [reflexivity|].
  simpl. destruct (p c) eqn:Hc; [|reflexivity].
  destruct (span p s) as [taken left]. simpl in *. now rewrite Hc, IH.
Qed.

Lemma function_regex_match_identifier (line name : string) :
  function_regex_match line = Some name -> is_identifier name = true.
Proof.
  unfold function_regex_match, assigned_function, declared_function.
  set (s := snd (span is_space line)).
  pose proof (span_all_chars is_word s) as Hs.
  destruct (span is_word s) as [name1 s1]. simpl in Hs.
  intros H.
  assert (Hdecl : match after "function" s with
                  | Some t1 =>
                      let (spaces, t2) := span is_space t1 in
                      match spaces with
                      | EmptyString => None
                      | String _ _ =>
                          let (name0, t3) := span is_word t2 in
                          match name0 with
                          | EmptyString => None
                          | String _ _ => if opens_parenthesis t3 then Some name0 else None
                          end
                      end
                  | None => None
                  end = Some name -> is_identifier name = true).
  { clear H. destruct (after "function" s) as [t1|]; [|discriminate].
    destruct (span is_space t1) as [spaces t2].
    destruct spaces as [|d spaces]; [discriminate|].
    pose proof (span_all_chars is_word t2) as Ht.
    destruct (span is_word t2) as [name2 t3]. simpl in Ht.
    destruct name2 as [|c name2]; [discriminate|].
    destruct (opens_parenthesis t3); [|discriminate].
    intros [= <-]. unfold is_identifier. now rewrite Ht. }
  destruct name1 as [|c name1]; [exact (Hdecl H)|].
  destruct (snd (span is_space s1)) as [|d s2]; [exact (Hdecl H)|].
  destruct (Ascii.eqb d ":"%char || Ascii.eqb d "="%char); [|exact (Hdecl H)].
  destruct (after "function" (snd (span is_space s2))) as [s3|]; [|exact (Hdecl H)].
  destruct (opens_parenthesis s3); [|exact (Hdecl H)].
  injection H as <-. unfold is_identifier. now rewrite Hs.
Qed.

Lemma find_functions_from_spec (k : nat) (source : list string) (name : string) (i : nat) :
  (name, i) ∈ find_functions_from k source
  <-> k <= i /\ exists line, source !! (i - k) = Some line
                            /\ function_regex_match line = Some name.
Proof.
  revert k. induction source as [|line rest IH]; intros k; simpl.
  - split; [intros H; inversion H|intros (_ & l & Hl & _); discriminate Hl].
  - assert (Hrest : (name, i) ∈ find_functions_from (S k) rest
                    <-> k < i /\ exists l, (line :: rest) !! (i - k) = Some l
                                          /\ function_regex_match l = Some name).
    { rewrite IH. split.
      - intros (Hk & l & Hl & Hm). split; [lia|]. exists l. split; [|exact Hm].
        replace (i - k) with (S (i - S k)) by lia. exact Hl.
      - intros (Hk & l & Hl & Hm). split; [lia|]. exists l. split; [|exact Hm].
        replace (i - k) with (S (i - S k)) in Hl by lia. exact Hl. }
    destruct (function_regex_match line) as [found|] eqn:Hline.
    + rewrite elem_of_cons, Hrest. split.
      * intros [[= -> ->]|(Hk & l & Hl & Hm)].
        -- split; [lia|]. exists line. rewrite Nat.sub_diag. now split.
        -- split; [lia|]. now exists l.
      * intros (Hk & l & Hl & Hm).
        destruct (decide (i = k)) as [->|Hne].
        -- left. rewrite Nat.sub_diag in Hl. injection Hl as <-. congruence.
        -- right. split; [lia|]. now exists l.
    + rewrite Hrest. split.
      * intros (Hk & l & Hl & Hm). split; [lia|]. now exists l.
      * intros (Hk & l & Hl & Hm).
        destruct (decide (i = k)) as [->|Hne].
        -- rewrite Nat.sub_diag in Hl. injection Hl as <-. congruence.
        -- split; [lia|]. now exists l.
Qed.

Lemma find_functions_from_sorted (k : nat) (source : list string) :
  StronglySorted lt (snd <$> find_functions_from k source)
  /\ Forall (fun i => k <= i) (snd <$> find_functions_from k source).
Proof.
  revert k. induction source as [|line rest IH]; intros k; simpl.
  - split; constructor.
  - destruct (IH (S k)) as [Hsorted Hbound].
    assert (Hk : Forall (fun i => k <= i) (snd <$> find_functions_from (S k) rest)).
    { eapply Forall_impl; [exact Hbound|]. simpl. intros; lia. }
    destruct (function_regex_match line).
    + simpl. split.
      * constructor; [exact Hsorted|].
        eapply Forall_impl; [exact Hbound|]. simpl. intros; lia.
      * constructor; [lia|exact Hk].
    + split; [exact Hsorted|exact Hk].
Qed.

(** X13. [find_functions] yields [(name, i)] exactly when line [i] of the
    source is a definition of [name]; the pairs come in the order of the
    lines, one for each line at most, and every name is an identifier. *)
Theorem find_functions_lines (source : list string) :
  (forall name i,
      (name, i) ∈ find_functions source
      <-> exists line, source !! i = Some line /\ function_regex_match line = Some name)
  /\ StronglySorted lt (snd <$> find_functions source)
  /\ Forall (fun found => is_identifier found.1 = true /\ found.2 < length source)
            (find_functions source).
Proof.
  split; [|split].
  - intros name i. unfold find_functions. rewrite find_functions_from_spec.
    rewrite Nat.sub_0_r. split.
    + now intros (_ & H).
    + intros H. split; [lia|exact H].
  - exact (proj1 (find_functions_from_sorted 0 source)).
  - apply Forall_forall. intros [name i] Hin.
    unfold find_functions in Hin. apply find_functions_from_spec in Hin.
    destruct Hin as (_ & line & Hline & Hmatch). rewrite Nat.sub_0_r in Hline.
    split.
    + exact (function_regex_match_identifier line name Hmatch).
    + exact (lookup_lt_Some _ _ _ Hline).
Qed.

End found_functions.

(* ===================================================================== *)
(** ** The linter: the documentation above a function *)
(* ===================================================================== *)

Section documentation.
Import Py LintYuidoc Lines.

Variable source : list string.
Variable boundary : nat.

Lemma find_docs_loop_step (count : nat) (in_comment : bool) (ending : option nat)
      (line : string) :
  source !! (boundary + S count) = Some line ->
  find_docs_loop (S count) boundary source in_comment ending
  = let ending' := if closes_comment line then Some (boundary + S count) else ending in
    let in_comment' := if closes_comment line then true else in_comment in
    if opens_documentation line then
      match ending' with
      | Some e => Returns (slice source (boundary + S count) (e + 1))
      | None => Raises (UnboundLocalError "ending_line_number")
      end
    else
      let in_comment'' := if opens_comment line then false else in_comment' in
      if negb in_comment'' && has_brace line then Returns []
      else find_docs_loop count boundary source in_comment'' ending'.
Proof. intros Hline. simpl. rewrite Hline. reflexivity. Qed.

Lemma slice_ends (i j : nat) (top bottom : string) :
  i <= j ->
  source !! i = Some top -> source !! j = Some bottom ->
  head (slice source i (j + 1)) = Some top
  /\ List.last (slice source i (j + 1)) top = bottom
  /\ length (slice source i (j + 1)) = j + 1 - i.
Proof.
  intros Hij Hi Hj. unfold slice.
  pose proof (lookup_lt_Some _ _ _ Hj) as Hlen.
  assert (Hlength : length (take (j + 1 - i) (drop i source)) = j + 1 - i).
  { rewrite length_take, length_drop. lia. }
  split; [|split; [|exact Hlength]].
  - rewrite head_lookup, lookup_take_lt by lia. rewrite lookup_drop.
    now rewrite Nat.add_0_r.
  - assert (Hlast : last (take (j + 1 - i) (drop i source)) = Some bottom).
    { rewrite last_lookup, Hlength.
      rewrite lookup_take_lt by lia. rewrite lookup_drop.
      replace (i + Init.Nat.pred (j + 1 - i)) with j by lia. exact Hj. }
    destruct (take (j + 1 - i) (drop i source)) as [|x l] eqn:Hl;
      [discriminate Hlast|].
    rewrite <- Hl in *. clear Hl.
    revert Hlast. generalize (take (j + 1 - i) (drop i source)). clear.
    intros l. induction l as [|x l IH]; [discriminate|].
    destruct l as [|y l]; [now intros [= ->]|].
    intros H. apply IH. exact H.
Qed.

Lemma find_docs_loop_sound (limit count : nat) (in_comment : bool)
      (ending : option nat) (docs : list string) :
  boundary + count < limit ->
  (forall e, ending = Some e ->
             boundary + count < e < limit
             /\ exists line, source !! e = Some line /\ closes_comment line = true) ->
  find_docs_loop count boundary source in_comment ending = Returns docs ->
  docs <> [] ->
  exists i j top bottom,
    boundary < i /\ i <= j /\ j < limit
    /\ source !! i = Some top /\ opens_documentation top = true
    /\ source !! j = Some bottom /\ closes_comment bottom = true
    /\ docs = slice source i (j + 1).
Proof.
  revert in_comment ending.
  induction count as [|count IH]; intros in_comment ending Hlimit Hending Hrun Hdocs.
  - simpl in Hrun. injection Hrun as <-. now contradiction Hdocs.
  - destruct (source !! (boundary + S count)) as [line|] eqn:Hline.
    2: { simpl in Hrun. rewrite Hline in Hrun. discriminate Hrun. }
    rewrite (find_docs_loop_step count in_comment ending line Hline) in Hrun.
    cbv zeta in Hrun.
    set (ending' := if closes_comment line then Some (boundary + S count) else ending)
      in Hrun.
    assert (Hending' : forall e, ending' = Some e ->
                                 boundary + count < e < limit /\ boundary + S count <= e
                                 /\ exists l, source !! e = Some l
                                              /\ closes_comment l = true).
    { intros e He. subst ending'. destruct (closes_comment line) eqn:Hcloses.
      - injection He as <-. split; [lia|split; [lia|]]. now exists line.
      - destruct (Hending e He) as [Hrange Hl]. split; [lia|split; [lia|exact Hl]]. }
    destruct (opens_documentation line) eqn:Hopens.
    + destruct ending' as [e|] eqn:He; [|discriminate Hrun].
      destruct (Hending' e eq_refl) as (Hrange & Hle & bottom & Hlast & Hcloses).
      injection Hrun as <-.
      exists (boundary + S count), e, line, bottom.
      repeat split; try assumption; lia.
    + destruct (negb _ && has_brace line).
      * injection Hrun as <-. now contradiction Hdocs.
      * eapply (IH _ ending'); [lia| |exact Hrun|exact Hdocs].
        intros e He. destruct (Hending' e He) as (Hrange & _ & Hl). now split.
Qed.

(** X14. What [find_docs] returns, when it returns anything, is a run of
    lines of the source that lies strictly between the boundary and the
    function: its first line opens documentation, its last line ends a
    comment.  The line at the boundary itself is never part of it, not
    even the first line of the file when the boundary is 0. *)
Theorem find_docs_returns_a_comment (line_number : nat) (docs : list string) :
  find_docs line_number boundary source = Returns docs ->
  docs <> [] ->
  exists i j top bottom,
    boundary < i /\ i <= j /\ j < line_number
    /\ docs = slice source i (j + 1)
    /\ length docs = j + 1 - i
    /\ head docs = Some top /\ opens_documentation top = true
    /\ List.last docs top = bottom /\ closes_comment bottom = true.
Proof.
  intros Hrun Hdocs. unfold find_docs in Hrun.
  destruct (decide (line_number - 1 - boundary = 0)) as [Hzero|Hpos].
  { rewrite Hzero in Hrun. injection Hrun as <-. now contradiction Hdocs. }
  destruct (find_docs_loop_sound line_number (line_number - 1 - boundary) false None docs)
    as (i & j & top & bottom & Hi & Hij & Hj & Hfirst & Hopens & Hlast & Hcloses & ->);
    [lia|discriminate|exact Hrun|exact Hdocs|].
  destruct (slice_ends i j top bottom Hij Hfirst Hlast) as (Hhead & Hend & Hlen).
  exists i, j, top, bottom. repeat split; assumption.
Qed.

Lemma find_docs_loop_no_index_error (count : nat) (in_comment : bool)
      (ending : option nat) :
  boundary + count < length source \/ count = 0 ->
  find_docs_loop count boundary source in_comment ending <> Raises IndexError.
Proof.
  revert in_comment ending.
  induction count as [|count IH]; intros in_comment ending Hlen; [discriminate|].
  destruct Hlen as [Hlen|Hzero]; [|discriminate Hzero].
  destruct (lookup_lt_is_Some_2 source (boundary + S count) Hlen) as [line Hline].
  rewrite (find_docs_loop_step count in_comment ending line Hline). cbv zeta.
  destruct (opens_documentation line).
  - destruct (if closes_comment line then _ else _); discriminate.
  - destruct (negb _ && has_brace line); [discriminate|].
    apply IH. left. lia.
Qed.

Lemma find_docs_loop_outcome (count : nat) (in_comment : bool) (ending : option nat) :
  (exists docs, find_docs_loop count boundary source in_comment ending = Returns docs)
  \/ find_docs_loop count boundary source in_comment ending
     = Raises (UnboundLocalError "ending_line_number")
  \/ find_docs_loop count boundary source in_comment ending = Raises IndexError.
Proof.
  revert in_comment ending.
  induction count as [|count IH]; intros in_comment ending; [left; now eexists|].
  destruct (source !! (boundary + S count)) as [line|] eqn:Hline.
  2: { right. right. simpl. now rewrite Hline. }
  rewrite (find_docs_loop_step count in_comment ending line Hline). cbv zeta.
  destruct (opens_documentation line).
  - destruct (if closes_comment line then _ else _); [left; now eexists|right; now left].
  - destruct (negb _ && has_brace line); [left; now eexists|apply IH].
Qed.

(** X15. For the line of a function of the source, or any line number up
    to the length of the source, [find_docs] indexes within the source: it
    returns, or raises [UnboundLocalError] for [ending_line_number], and
    never [IndexError]. *)
Theorem find_docs_stays_in_range (line_number : nat) :
  line_number <= length source ->
  (exists docs, find_docs line_number boundary source = Returns docs)
  \/ find_docs line_number boundary source
     = Raises (UnboundLocalError "ending_line_number").
Proof.
  intros Hlen. unfold find_docs.
  destruct (find_docs_loop_outcome (line_number - 1 - boundary) false None)
    as [H|[H|H]]; [now left|now right|].
  exfalso. revert H. apply find_docs_loop_no_index_error. lia.
Qed.

End documentation.

Section documentation_found.
Import Py LintYuidoc Lines.

Variable source : list string.
Variable boundary : nat.

Lemma prefix_shorter (p q s : string) :
  String.prefix (p ++ q) s = true -> String.prefix p s = true.
Proof.
  revert s. induction p as [|c p IH]; intros s H.
  - now destruct s.
  - destruct s as [|d s]; [discriminate H|].
    change (String c p ++ q) with (String c (p ++ q)) in H. simpl in *.
    destruct (ascii_dec c d); [now apply IH|discriminate H].
Qed.

Lemma opens_documentation_comment (line : string) :
  opens_comment line = false -> opens_documentation line = false.
Proof.
  unfold opens_comment, opens_documentation, startswith. intros Hno.
  destruct (String.prefix "/**" (strip line)) eqn:H; [|reflexivity].
  rewrite (prefix_shorter "/*" "*" (strip line) H) in Hno. discriminate Hno.
Qed.

Lemma find_docs_loop_skips_quiet (d count : nat) :
  boundary + count + d < length source ->
  (forall k line, boundary + count < k <= boundary + count + d ->
                  source !! k = Some line -> is_quiet line = true) ->
  find_docs_loop (d + count) boundary source false None
  = find_docs_loop count boundary source false None.
Proof.
  induction d as [|d IH]; intros Hlen Hquiet; [reflexivity|].
  destruct (lookup_lt_is_Some_2 source (boundary + S (d + count))) as [line Hline];
    [lia|].
  change (S d + count) with (S (d + count)).
  rewrite (find_docs_loop_step source boundary (d + count) false None line Hline).
  cbv zeta.
  pose proof (Hquiet (boundary + S (d + count)) line ltac:(lia) Hline) as Hq.
  unfold is_quiet in Hq.
  apply andb_true_iff in Hq as [Hq Hbrace]. apply andb_true_iff in Hq as [Hcloses Hopens].
  apply negb_true_iff in Hcloses, Hopens, Hbrace.
  rewrite Hcloses, Hopens, Hbrace.
  destruct (opens_comment line); simpl; apply IH; try lia;
    intros k l Hk; apply Hquiet; lia.
Qed.

Lemma find_docs_loop_skips_comment (d count ending : nat) :
  boundary + count + d < length source ->
  (forall k line, boundary + count < k <= boundary + count + d ->
                  source !! k = Some line ->
                  closes_comment line = false /\ opens_comment line = false) ->
  find_docs_loop (d + count) boundary source true (Some ending)
  = find_docs_loop count boundary source true (Some ending).
Proof.
  induction d as [|d IH]; intros Hlen Hinner; [reflexivity|].
  destruct (lookup_lt_is_Some_2 source (boundary + S (d + count))) as [line Hline];
    [lia|].
  change (S d + count) with (S (d + count)).
  rewrite (find_docs_loop_step source boundary (d + count) true (Some ending) line Hline).
  cbv zeta.
  destruct (Hinner (boundary + S (d + count)) line ltac:(lia) Hline) as [Hcloses Hopens].
  rewrite Hcloses, Hopens, (opens_documentation_comment line Hopens). simpl.
  apply IH; [lia|]. intros k l Hk. apply Hinner. lia.
Qed.

(** X16. [find_docs] finds the documentation comment above a function:
    when the lines between the comment and the function are quiet (they
    end no comment, open no documentation and have no brace), and no line
    of the comment but its last ends a comment and none but its first
    opens one, the lines of the comment are returned, from the one that
    opens the documentation to the one that ends it.  Braces inside the
    comment do not matter. *)
Theorem find_docs_finds_the_comment (line_number i j : nat) (top bottom : string) :
  boundary < i -> i <= j -> j < line_number -> line_number <= length source ->
  source !! i = Some top -> opens_documentation top = true ->
  source !! j = Some bottom -> closes_comment bottom = true ->
  (forall k line, i < k <= j -> source !! k = Some line -> opens_comment line = false) ->
  (forall k line, i <= k < j -> source !! k = Some line -> closes_comment line = false) ->
  (forall k line, j < k < line_number -> source !! k = Some line -> is_quiet line = true) ->
  find_docs line_number boundary source = Returns (slice source i (j + 1)).
Proof.
  intros Hi Hij Hj Hlen Htop Hopens Hbottom Hcloses Hinner_open Hinner_close Hquiet.
  unfold find_docs.
  replace (line_number - 1 - boundary)
    with ((line_number - 1 - j) + S (j - boundary - 1)) by lia.
  rewrite find_docs_loop_skips_quiet; [|lia|intros k l Hk; apply Hquiet; lia].
  assert (Hjline : source !! (boundary + S (j - boundary - 1)) = Some bottom).
  { replace (boundary + S (j - boundary - 1)) with j by lia. exact Hbottom. }
  rewrite (find_docs_loop_step source boundary (j - boundary - 1) false None bottom Hjline).
  cbv zeta. rewrite Hcloses.
  replace (boundary + S (j - boundary - 1)) with j by lia.
  destruct (decide (i = j)) as [->|Hne].
  - assert (top = bottom) as -> by congruence. now rewrite Hopens.
  - pose proof (Hinner_open j bottom ltac:(lia) Hbottom) as Hno.
    rewrite Hno, (opens_documentation_comment bottom Hno). simpl.
    replace (j - boundary - 1) with ((j - 1 - i) + S (i - boundary - 1)) by lia.
    rewrite find_docs_loop_skips_comment.
    2: lia.
    2: { intros k l Hk Hl. split.
         - apply (Hinner_close k l); [lia|exact Hl].
         - apply (Hinner_open k l); [lia|exact Hl]. }
    assert (Hiline : source !! (boundary + S (i - boundary - 1)) = Some top).
    { replace (boundary + S (i - boundary - 1)) with i by lia. exact Htop. }
    rewrite (find_docs_loop_step source boundary (i - boundary - 1) true (Some j)
                                 top Hiline).
    cbv zeta. rewrite (Hinner_close i top ltac:(lia) Htop), Hopens.
    replace (boundary + S (i - boundary - 1)) with i by lia. reflexivity.
Qed.

(** X17. Documentation that is opened and not ended makes [find_docs]
    fail: when a line opens documentation, does not end a comment, and is
    followed by quiet lines up to the function, the slice is taken with
    [ending_line_number] unassigned and [UnboundLocalError] is raised. *)
Theorem find_docs_unterminated_comment (line_number i : nat) (top : string) :
  boundary < i -> i < line_number -> line_number <= length source ->
  source !! i = Some top ->
  opens_documentation top = true -> closes_comment top = false ->
  (forall k line, i < k < line_number -> source !! k = Some line -> is_quiet line = true) ->
  find_docs line_number boundary source = Raises (UnboundLocalError "ending_line_number").
Proof.
  intros Hi Hlt Hlen Htop Hopens Hcloses Hquiet.
  unfold find_docs.
  replace (line_number - 1 - boundary)
    with ((line_number - 1 - i) + S (i - boundary - 1)) by lia.
  rewrite find_docs_loop_skips_quiet; [|lia|intros k l Hk; apply Hquiet; lia].
  assert (Hiline : source !! (boundary + S (i - boundary - 1)) = Some top).
  { replace (boundary + S (i - boundary - 1)) with i by lia. exact Htop. }
  rewrite (find_docs_loop_step source boundary (i - boundary - 1) false None top Hiline).
  cbv zeta. now rewrite Hcloses, Hopens.
Qed.

End documentation_found.

(* ===================================================================== *)
(** ** The linter: lint in a comment *)
(* ===================================================================== *)

Section comment_lint.
Import Py LintYuidoc Lines.

Variable code_location : string.

Lemma whitespace_lint (lines : list string) (lint : list string) :
  foldl (fun lint line =>
           if trailing_whitespace line
           then found code_location whitespace_message lint else lint)
        lint lines
  = (lint ++ repeat (code_location ++ " " ++ whitespace_message)%string
                    (length (List.filter trailing_whitespace lines)))%list.
Proof.
  revert lint. induction lines as [|line lines IH]; intros lint; simpl.
  - now rewrite app_nil_r.
  - rewrite IH. destruct (trailing_whitespace line); [|reflexivity].
    unfold found. simpl. now rewrite <- app_assoc.
Qed.

Lemma fmap_repeat_same {A B : Type} (f : A -> B) (x : A) (n : nat) :
  f <$> repeat x n = repeat (f x) n.
Proof. induction n as [|n IH]; [reflexivity|]. simpl. now rewrite <- IH. Qed.

Lemma lint_comment_structure (top : string) (rest : list string) :
  lint_comment (top :: rest) code_location
  = (fun message => code_location ++ " " ++ message)
      <$> ((if String.eqb (strip top) "/**" then [] else [opening_message])
           ++ repeat whitespace_message
                     (length (List.filter trailing_whitespace (top :: rest)))
           ++ (if String.eqb (strip (List.last (top :: rest) top)) "*/"
               then [] else [closing_message]))%list.
Proof.
  unfold lint_comment. cbv beta iota zeta. rewrite whitespace_lint.
  unfold found. rewrite !fmap_app, fmap_repeat_same.
  destruct (String.eqb (strip top) "/**");
    destruct (String.eqb (strip (List.last (top :: rest) top)) "*/");
    simpl; rewrite <- ?app_assoc, ?app_nil_r; reflexivity.
Qed.

Lemma none_flagged (lines : list string) :
  length (List.filter trailing_whitespace lines) = 0
  <-> Forall (fun line => trailing_whitespace line = false) lines.
Proof.
  induction lines as [|x l IH]; simpl.
  - split; [constructor|reflexivity].
  - destruct (trailing_whitespace x) eqn:Hx; simpl.
    + split; [discriminate|]. intros H. inversion H; congruence.
    + rewrite IH. split; [now constructor|]. intros H. now inversion H.
Qed.

(** X18. The lint of a comment is, in this order: the message about the
    opening, unless the first line stripped is the opening of a
    documentation comment and nothing else; one message about whitespace
    for each line whose last character but one is whitespace; the message
    about the closing, unless the last line stripped is the end of a
    comment and nothing else.  Each message follows the code location and
    a space, and there are at most two more messages than lines. *)
Theorem lint_comment_messages (top : string) (rest : list string) :
  let lines := top :: rest in
  let opening :=
    if String.eqb (strip top) "/**" then [] else [opening_message] in
  let closing :=
    if String.eqb (strip (List.last lines top)) "*/" then [] else [closing_message] in
  let flagged := length (List.filter trailing_whitespace lines) in
  lint_comment lines code_location
  = (fun message => code_location ++ " " ++ message)
      <$> (opening ++ repeat whitespace_message flagged ++ closing)%list
  /\ length (lint_comment lines code_location) <= length lines + 2.
Proof.
  intros lines opening closing flagged.
  pose proof (lint_comment_structure top rest) as Hrun.
  fold lines in Hrun. fold opening closing flagged in Hrun.
  split; [exact Hrun|].
  rewrite Hrun, length_fmap, !length_app, repeat_length.
  assert (Hflagged : flagged <= length lines) by apply filter_length_le.
  assert (Hopening : length opening <= 1)
    by (subst opening; destruct (String.eqb (strip top) "/**"); simpl; lia).
  assert (Hclosing : length closing <= 1)
    by (subst closing; destruct (String.eqb (strip (List.last lines top)) "*/");
        simpl; lia).
  lia.
Qed.

(** X19. A comment is free of lint exactly when it has no lines at all,
    or its first line stripped is the opening of a documentation comment,
    its last line stripped the end of a comment, and no line has
    whitespace as its last character but one. *)
Theorem lint_comment_clean (lines : list string) :
  lint_comment lines code_location = []
  <-> lines = []
      \/ (exists top rest,
             lines = top :: rest
             /\ strip top = "/**"
             /\ strip (List.last lines top) = "*/"
             /\ Forall (fun line => trailing_whitespace line = false) lines).
Proof.
  destruct lines as [|top rest].
  { split; [now left|reflexivity]. }
  rewrite lint_comment_structure. split.
  - intros H. right. exists top, rest. split; [reflexivity|].
    apply fmap_nil_inv in H.
    apply app_eq_nil in H as [Hopening H]. apply app_eq_nil in H as [Hflagged Hclosing].
    destruct (String.eqb_spec (strip top) "/**") as [Htop|Htop];
      [|discriminate Hopening].
    destruct (String.eqb_spec (strip (List.last (top :: rest) top)) "*/") as [Hend|Hend];
      [|discriminate Hclosing].
    split; [exact Htop|split; [exact Hend|]].
    apply none_flagged.
    destruct (length (List.filter trailing_whitespace (top :: rest)));
      [reflexivity|discriminate Hflagged].
  - intros [Hnil|(top' & rest' & Heq & Htop & Hend & Hall)]; [discriminate Hnil|].
    injection Heq as <- <-.
    apply none_flagged in Hall. rewrite Hall, Htop, Hend. reflexivity.
Qed.

Lemma second_to_last_final (body : string) (c : ascii) :
  second_to_last (body ++ String c EmptyString) = final_char body.
Proof.
  induction body as [|a body IH]; [reflexivity|].
  destruct body as [|b body]; [reflexivity|].
  change (second_to_last (String a (String b (body ++ String c EmptyString)))
          = final_char (String b body)).
  destruct body as [|d body]; [reflexivity|].
  exact IH.
Qed.

(** X20. The whitespace check never looks at the last character of a
    line: a line is flagged exactly when the character before its last
    one is whitespace.  For a line that ends in a newline this is trailing
    whitespace; in a last line without a newline, whitespace at the very
    end goes unnoticed. *)
Theorem trailing_whitespace_before_last (body : string) (c : ascii) :
  trailing_whitespace (body ++ String c EmptyString)
  = match final_char body with
    | Some d => is_whitespace d
    | None => false
    end.
Proof.
  unfold trailing_whitespace. rewrite second_to_last_final.
  destruct body as [|a body]; [reflexivity|].
  change (String.length (String a body ++ String c EmptyString))
    with (S (String.length (body ++ String c EmptyString))).
  destruct body as [|b body]; reflexivity.
Qed.

End comment_lint.

(* ===================================================================== *)
(** ** The linter: the listing of undocumented functions *)
(* ===================================================================== *)

Section listing.
Import Py LintYuidoc Lines.

Lemma contains_none (s : string) (c : ascii) :
  contains s c = false -> all_chars (fun x => negb (Ascii.eqb x c)) s = true.
Proof.
  induction s as [|d s IH]; [reflexivity|]. simpl. intros H.
  apply orb_false_iff in H as [Hd Hs].
  rewrite Ascii.eqb_sym, Hd. simpl. now apply IH.
Qed.

Lemma contains_app_char (s t : string) (c : ascii) :
  contains (s ++ String c t) c = true.
Proof.
  induction s as [|d s IH].
  - change ("" ++ String c t) with (String c t). simpl. now rewrite Ascii.eqb_refl.
  - change (String d s ++ String c t) with (String d (s ++ String c t)). simpl.
    rewrite IH. apply orb_true_r.
Qed.

Lemma pretty_N_char_digit (x : N) : is_digit (pretty_N_char x) = true.
Proof. unfold pretty_N_char. repeat case_match; reflexivity. Qed.

Lemma pretty_N_go_digits (x : N) (s : string) :
  all_chars is_digit s = true -> all_chars is_digit (pretty_N_go x s) = true.
Proof.
  revert s. induction (N.lt_wf_0 x) as [x _ IH]; intros s Hs.
  destruct (decide (x = 0)%N) as [->|Hx].
  - now rewrite pretty_N_go_0.
  - rewrite pretty_N_go_step by lia. apply IH.
    + apply N.div_lt; lia.
    + simpl. now rewrite pretty_N_char_digit.
Qed.

Lemma format_d_digits (n : nat) :
  all_chars is_digit (format_d n) = true /\ format_d n <> "".
Proof.
  unfold format_d. split.
  - unfold pretty, pretty_nat, pretty, pretty_N.
    destruct (decide (N.of_nat n = 0)%N); [reflexivity|].
    now apply pretty_N_go_digits.
  - exact (pretty_N_not_empty (N.of_nat n)).
Qed.

Lemma parser_code_location (file_name function_name suffix : string) (line_number : nat) :
  is_file_name file_name = true ->
  is_quotable function_name = true ->
  parser (code_location file_name line_number function_name ++ suffix)
  = Returns (file_name, function_name).
Proof.
  unfold is_file_name, is_quotable. intros Hfile Hfunction.
  apply andb_true_iff in Hfile as [Hfile_ne Hfile].
  apply andb_true_iff in Hfunction as [Hfunction_ne Hfunction].
  apply negb_true_iff in Hfile, Hfunction.
  destruct (format_d_digits (line_number + 1)) as [Hdigits Hdigits_ne].
  unfold code_location, dquote.
  rewrite !string_app_assoc.
  change (file_name ++ ":" ++ format_d (line_number + 1) ++ " "
            ++ String "034"%char "" ++ function_name ++ String "034"%char "" ++ suffix)
    with (file_name ++ String ":"%char
            (format_d (line_number + 1) ++ String " "%char
               (String "034"%char (function_name ++ String "034"%char suffix)))).
  unfold parser.
  rewrite span_app by first [exact (contains_none _ _ Hfile) | reflexivity].
  destruct file_name as [|a file_name]; [discriminate Hfile_ne|].
  rewrite span_app by first [exact Hdigits | reflexivity].
  destruct (format_d (line_number + 1)) as [|d digits]; [now contradiction Hdigits_ne|].
  rewrite span_app by first [exact (contains_none _ _ Hfunction) | reflexivity].
  destruct function_name as [|b function_name]; [discriminate Hfunction_ne|].
  reflexivity.
Qed.

Lemma parser_raises (line : string) (e : PyError) :
  parser line = Raises e -> e = AttributeError.
Proof.
  unfold parser.
  destruct (span _ line) as [file_name s1].
  destruct file_name; [now intros [= <-]|].
  destruct s1 as [|c s2]; [now intros [= <-]|].
  destruct (span is_digit s2) as [digits s3].
  destruct digits; [now intros [= <-]|].
  destruct s3 as [|c3 s3]; [now intros [= <-]|].
  repeat (case_match; try (now intros [= <-]); try discriminate).
Qed.

Lemma parser_needs_colon (line : string) :
  contains line ":"%char = false -> parser line = Raises AttributeError.
Proof.
  intros Hline. unfold parser.
  pose proof (span_app _ line "" (contains_none _ _ Hline) eq_refl) as Hspan.
  rewrite string_app_nil_r in Hspan. rewrite Hspan.
  now destruct line.
Qed.

Lemma map_parser_raises (lines : list string) (e : PyError) :
  map_parser lines = Raises e -> e = AttributeError.
Proof.
  induction lines as [|line rest IH]; simpl; [discriminate|].
  destruct (parser line) as [entry|e'] eqn:Hline.
  - destruct (map_parser rest) as [entries|e'']; [discriminate|].
    intros [= <-]. now apply IH.
  - intros [= <-]. exact (parser_raises line e' Hline).
Qed.

(** X21. The listing that the linter writes is the listing it reads: for
    functions in files whose names have no colon, the lines made of the
    code locations, whatever follows each on its line, are read back as
    the set of the pairs of file name and function name, the line numbers
    being dropped. *)
Theorem read_undocumented_listing_round_trip
        (entries : list (string * nat * string)) (ending : string) :
  Forall (fun entry => is_file_name entry.1.1 = true /\ is_quotable entry.2 = true)
         entries ->
  read_undocumented_listing
    ((fun entry => code_location entry.1.1 entry.1.2 entry.2 ++ ending) <$> entries)
  = Returns (list_to_set ((fun entry => (entry.1.1, entry.2)) <$> entries)).
Proof.
  intros Hvalid.
  assert (Hmap : map_parser ((fun entry => code_location entry.1.1 entry.1.2 entry.2
                                           ++ ending) <$> entries)
                 = Returns ((fun entry => (entry.1.1, entry.2)) <$> entries)).
  { induction Hvalid as [|entry rest [Hfile Hfn] _ IH]; [reflexivity|].
    rewrite !fmap_cons. cbn [map_parser].
    rewrite (parser_code_location _ _ _ _ Hfile Hfn), IH. reflexivity. }
  unfold read_undocumented_listing. rewrite Hmap.
  destruct Hvalid as [|[[file_name line_number] function_name] rest _ _]; [reflexivity|].
  rewrite fmap_cons. cbn [fst snd]. unfold code_location.
  rewrite !string_app_assoc.
  change (file_name ++ ":" ++ format_d (line_number + 1) ++ " " ++ dquote
            ++ function_name ++ dquote ++ ending)
    with (file_name ++ String ":"%char (format_d (line_number + 1) ++ " " ++ dquote
            ++ function_name ++ dquote ++ ending)).
  now rewrite contains_app_char.
Qed.

(** X22. One line without a colon makes the listing unreadable: when the
    first line has none the listing is taken for the old format and
    [RuntimeError] is raised; otherwise the pattern fails on a line and
    [AttributeError] is raised.  A blank line is such a line. *)
Theorem read_undocumented_listing_needs_colons (lines : list string) (line : string) :
  line ∈ lines ->
  contains line ":"%char = false ->
  (exists top rest, lines = top :: rest /\ contains top ":"%char = false
                    /\ read_undocumented_listing lines
                       = Raises (RuntimeError old_style_message))
  \/ (exists top rest, lines = top :: rest /\ contains top ":"%char = true
                       /\ read_undocumented_listing lines = Raises AttributeError).
Proof.
  intros Hin Hline.
  assert (Hmap : map_parser lines = Raises AttributeError).
  { induction lines as [|l rest IH]; [inversion Hin|].
    simpl. apply elem_of_cons in Hin as [<-|Hin].
    - now rewrite (parser_needs_colon line Hline).
    - destruct (parser l) as [entry|e] eqn:Hl.
      + now rewrite (IH Hin).
      + now rewrite (parser_raises l e Hl). }
  destruct lines as [|top rest]; [inversion Hin|].
  unfold read_undocumented_listing. rewrite Hmap.
  destruct (contains top ":"%char) eqn:Htop.
  - right. exists top, rest. now split.
  - left. exists top, rest. now split.
Qed.

End listing.

(* ===================================================================== *)
(** ** The further theorems at inputs of the test-suite and of the sources *)
(* ===================================================================== *)

Lemma terms_then_showTerms_witness :
  ToString (VNumber (Int 42)) = Normal "42"
  /\ showTerms IsoDate.parse _makeRequest Tests.this "canonical" (VNumber (Int 42)) observer
               (world_after (terms Tests.this "http://1.2.3.4/" Tests.bakery)
                            Tests.empty_world)
     = _makeRequest Tests.bakery "http://1.2.3.4/v1/terms/canonical?revision=42"
                    "GET" VNull (handler IsoDate.parse observer)
                    (world_after (terms Tests.this "http://1.2.3.4/" Tests.bakery)
                                 Tests.empty_world).
Proof.
  split; [reflexivity|].
  exact (terms_then_showTerms IsoDate.parse _makeRequest Tests.empty_world Tests.this
                              "http://1.2.3.4/" Tests.bakery "canonical"
                              (VNumber (Int 42)) observer "42" eq_refl).
Defined.

Lemma handler_lenient_witness :
  GetV (VObject Tests.bad_wolf) (Named "created-on") = Normal VUndefined
  /\ ToString VUndefined = Normal "undefined"
  /\ handler IsoDate.parse observer VNull (VArray [VObject Tests.bad_wolf]) Tests.world
     = observer VNull
         (Some (TermsData.make VUndefined VUndefined VUndefined VUndefined
                               (new_Date NaN))) Tests.world.
Proof.
  split; [reflexivity|split; [reflexivity|]].
  exact (handler_lenient IsoDate.parse (VObject Tests.bad_wolf) [] VUndefined "undefined"
                         observer Tests.world eq_refl eq_refl).
Defined.


Lemma showTerms_name_not_escaped_witness :
  "42" <> ""
  /\ showTerms IsoDate.parse _makeRequest Tests.this "canonical?revision=42" VNull
               observer Tests.world
     = showTerms IsoDate.parse _makeRequest Tests.this "canonical" (VString "42")
                 observer Tests.world.
Proof.
  split; [discriminate|].
  apply (showTerms_name_not_escaped IsoDate.parse _makeRequest Tests.world Tests.this
                                    "canonical" "42" observer).
  discriminate.
Defined.

Lemma showTerms_calls_back_per_reply_witness :
  clients Tests.world !! Tests.this
  = Some (TermsClient.make "http://1.2.3.4/v1" Tests.bakery)
  /\ ToString VNull = Normal "null"
  /\ forallb well_formed [Succeeds (VArray [VObject Tests.canonical]);
                          Fails (VObject Tests.bad_wolf)] = true
  /\ length (callbacks (events_of (call IsoDate.parse Tests.this "canonical" VNull
                                        [Succeeds (VArray [VObject Tests.canonical]);
                                         Fails (VObject Tests.bad_wolf)])
                                  Tests.world))
     = 2.
Proof.
  split; [reflexivity|split; [reflexivity|split; [reflexivity|]]].
  exact (proj1 (proj2 (showTerms_calls_back_per_reply
                         IsoDate.parse Tests.world Tests.this
                         (TermsClient.make "http://1.2.3.4/v1" Tests.bakery)
                         "canonical" VNull "null"
                         [Succeeds (VArray [VObject Tests.canonical]);
                          Fails (VObject Tests.bad_wolf)]
                         eq_refl eq_refl eq_refl))).
Defined.

Lemma function_regex_matches_assignment_witness :
  Lines.is_identifier "showTerms" = true
  /\ LintYuidoc.function_regex_match "    showTerms: function(name, revision, callback) {"
     = Some "showTerms".
Proof.
  split; [reflexivity|].
  exact (function_regex_matches_assignment
           "    " "showTerms" "" " " "" "name, revision, callback) {" ":"%char
           eq_refl eq_refl eq_refl eq_refl eq_refl (or_introl eq_refl)).
Defined.

Lemma function_regex_matches_declaration_witness :
  Lines.is_identifier "terms" = true
  /\ LintYuidoc.function_regex_match "  function terms(url, bakery) {" = Some "terms".
Proof.
  split; [reflexivity|].
  apply (function_regex_matches_declaration "  " " " "terms" "" "url, bakery) {");
    try reflexivity.
  discriminate.
Defined.

Lemma function_regex_misses_anonymous_witness :
  Lines.is_identifier "handler" = true
  /\ LintYuidoc.function_regex_match "  function (exports) {" = None
  /\ LintYuidoc.function_regex_match "      var handler = function(error, response) {"
     = None.
Proof.
  split; [reflexivity|].
  pose proof (function_regex_misses_anonymous "  " " " "handler" "exports) {"
                                              eq_refl eq_refl eq_refl) as [Hfirst _].
  pose proof (function_regex_misses_anonymous "      " "" "handler"
                                              " = function(error, response) {"
                                              eq_refl eq_refl eq_refl) as [_ Hsecond].
  split; [exact Hfirst|exact Hsecond].
Defined.

Lemma find_docs_returns_a_comment_witness :
  LintYuidoc.find_docs 5 0 LintTests.source = Py.Returns LintTests.documentation
  /\ LintTests.documentation <> []
  /\ exists i j top bottom,
      0 < i /\ i <= j /\ j < 5
      /\ LintTests.documentation = Py.slice LintTests.source i (j + 1)
      /\ Lines.opens_documentation top = true /\ Lines.closes_comment bottom = true.
Proof.
  split; [reflexivity|split; [discriminate|]].
  destruct (find_docs_returns_a_comment LintTests.source 0 5 LintTests.documentation
                                        eq_refl ltac:(discriminate))
    as (i & j & top & bottom & Hi & Hij & Hj & Hdocs & _ & _ & Hopens & _ & Hcloses).
  exists i, j, top, bottom. repeat split; assumption.
Defined.

Lemma find_docs_stays_in_range_witness :
  8 <= length LintTests.source
  /\ ((exists docs, LintYuidoc.find_docs 8 5 LintTests.source = Py.Returns docs)
      \/ LintYuidoc.find_docs 8 5 LintTests.source
         = Py.Raises (Py.UnboundLocalError "ending_line_number")).
Proof.
  split; [vm_compute; lia|].
  apply (find_docs_stays_in_range LintTests.source 5 8). vm_compute. lia.
Defined.

Lemma find_docs_unterminated_comment_witness :
  LintTests.unterminated !! 1 = Some ("/** Initializer." ++ LintTests.newline)
  /\ LintYuidoc.find_docs 2 0 LintTests.unterminated
     = Py.Raises (Py.UnboundLocalError "ending_line_number").
Proof.
  split; [reflexivity|].
  apply (find_docs_unterminated_comment LintTests.unterminated 0 2 1
                                        ("/** Initializer." ++ LintTests.newline));
    [lia|lia|vm_compute; lia|reflexivity|reflexivity|reflexivity|intros k line Hk; lia].
Defined.

Lemma read_undocumented_listing_round_trip_witness :
  Forall (fun entry => Lines.is_file_name entry.1.1 = true
                       /\ Lines.is_quotable entry.2 = true)
         LintTests.undocumented
  /\ LintYuidoc.read_undocumented_listing
       ((fun entry => LintYuidoc.code_location entry.1.1 entry.1.2 entry.2
                      ++ LintTests.newline) <$> LintTests.undocumented)
     = Py.Returns {[ ("app/views/utils.js", "humanizeTimestamp");
                     ("app/store/env/go.js", "cleanUpJSON") ]}.
Proof.
  assert (Hvalid : Forall (fun entry => Lines.is_file_name entry.1.1 = true
                                        /\ Lines.is_quotable entry.2 = true)
                          LintTests.undocumented).
  { repeat constructor. }
  split; [exact Hvalid|].
  rewrite (read_undocumented_listing_round_trip LintTests.undocumented
                                                LintTests.newline Hvalid).
  reflexivity.
Defined.

Lemma read_undocumented_listing_needs_colons_witness :
  LintTests.newline ∈ [LintYuidoc.code_location "app/views/utils.js" 41 "humanizeTimestamp"
                       ++ LintTests.newline;
                       LintTests.newline]
  /\ Py.contains LintTests.newline ":"%char = false
  /\ LintYuidoc.read_undocumented_listing
       [LintYuidoc.code_location "app/views/utils.js" 41 "humanizeTimestamp"
        ++ LintTests.newline;
        LintTests.newline]
     = Py.Raises Py.AttributeError.
Proof.
  assert (Hin : LintTests.newline
                ∈ [LintYuidoc.code_location "app/views/utils.js" 41 "humanizeTimestamp"
                   ++ LintTests.newline;
                   LintTests.newline]).
  { apply elem_of_cons. right. apply elem_of_cons. now left. }
  split; [exact Hin|split; [reflexivity|]].
  destruct (read_undocumented_listing_needs_colons _ _ Hin eq_refl)
    as [(top & rest & Heq & Htop & _)|(top & rest & _ & _ & Hrun)].
  - exfalso. injection Heq as <- _. vm_compute in Htop. discriminate Htop.
  - exact Hrun.
Defined.

Lemma find_docs_finds_the_comment_witness :
  LintTests.source !! 2 = Some ("  /**" ++ LintTests.newline)
  /\ LintTests.source !! 4 = Some ("  */" ++ LintTests.newline)
  /\ LintYuidoc.find_docs 5 0 LintTests.source
     = Py.Returns (Py.slice LintTests.source 2 (4 + 1)).
Proof.
  split; [reflexivity|split; [reflexivity|]].
  apply (find_docs_finds_the_comment LintTests.source 0 5 2 4
                                     ("  /**" ++ LintTests.newline)
                                     ("  */" ++ LintTests.newline));
    [lia|lia|lia|vm_compute; lia|reflexivity|reflexivity|reflexivity|reflexivity| | | ].
  - intros k line Hk Hline.
    assert (k = 3 \/ k = 4) as [-> | ->] by lia;
      vm_compute in Hline; injection Hline as <-; reflexivity.
  - intros k line Hk Hline.
    assert (k = 2 \/ k = 3) as [-> | ->] by lia;
      vm_compute in Hline; injection Hline as <-; reflexivity.
  - intros k line Hk. lia.
Defined.

(* ===================================================================== *)
(** ** The linter at work on a file *)
(* ===================================================================== *)

Module LintReplay.
Import Py LintYuidoc LintTests.

Example functions_of_the_file :
  find_functions source = [("terms", 5); ("showTerms", 8)].
Proof. reflexivity. Qed.

Example documentation_of_terms :
  find_docs 5 0 source = Returns documentation.
Proof. reflexivity. Qed.

Example showTerms_is_undocumented :
  find_docs 8 5 source = Returns [].
Proof. reflexivity. Qed.

Example documentation_is_clean :
  lint_comment documentation (code_location "terms.js" 5 "terms") = [].
Proof. reflexivity. Qed.

Example documentation_on_the_first_line_is_missed :
  find_docs 1 0 (lines_of ["/** Initializer. */"; "function terms(url, bakery) {"])
  = Returns [].
Proof. reflexivity. Qed.

Example whitespace_at_the_very_end_is_missed :
  Lines.is_quiet "x" = true
  /\ trailing_whitespace ("  */ " ++ newline) = true
  /\ trailing_whitespace "  */ " = false.
Proof. repeat split; reflexivity. Qed.

Example the_file_on_disk :
  check_file_on {[ "terms.js" := source ]} "terms.js" ∅ = Returns report
  /\ check_file_on {[ "terms.js" := source ]} "index.js" ∅ = Raises (IOError "index.js")
  /\ check_file_on {[ "terms.js" := unterminated ]} "terms.js" ∅
     = Raises (UnboundLocalError "ending_line_number").
Proof. repeat split; vm_compute; reflexivity. Qed.

End LintReplay.

(* ===================================================================== *)
(** ** The linter: a whole file *)
(* ===================================================================== *)

#[local] Set Warnings "-clear-no-such-hyp".

Section whole_file.
Import Py LintYuidoc Lines.

Variable source : list string.
Variable file_name : string.
Variable undocumented : gset (string * string).

Lemma find_docs_length (line_number boundary : nat) (docs : list string) :
  find_docs line_number boundary source = Returns docs ->
  docs = [] \/ (boundary < line_number /\ length docs <= line_number - 1 - boundary).
Proof.
  intros Hrun. destruct docs as [|line docs]; [now left|right].
  unfold find_docs in Hrun.
  destruct (decide (line_number - 1 - boundary = 0)) as [Hzero|Hpos].
  { rewrite Hzero in Hrun. discriminate Hrun. }
  destruct (find_docs_loop_sound source boundary line_number
                                 (line_number - 1 - boundary) false None (line :: docs))
    as (i & j & top & bottom & Hi & Hij & Hj & Htop & _ & Hbottom & _ & Hdocs);
    [lia|discriminate|exact Hrun|discriminate|].
  destruct (slice_ends source i j top bottom Hij Htop Hbottom) as (_ & _ & Hlen).
  rewrite Hdocs, Hlen. lia.
Qed.

Lemma check_function_outcome (boundary : nat) (report : Report)
      (function_name : string) (line_number : nat) :
  line_number <= length source ->
  (exists report',
      check_function file_name undocumented source boundary report
                     function_name line_number = Returns report')
  \/ check_function file_name undocumented source boundary report
                    function_name line_number
     = Raises (UnboundLocalError "ending_line_number").
Proof.
  intros Hlen. unfold check_function.
  destruct (find_docs_loop_outcome source boundary (line_number - 1 - boundary) false None)
    as [[docs H]|[H|H]].
  - left. unfold find_docs. rewrite H. destruct docs; eexists; reflexivity.
  - right. unfold find_docs. now rewrite H.
  - exfalso. revert H. apply find_docs_loop_no_index_error. lia.
Qed.

Lemma check_functions_outcome (functions : list (string * nat)) (boundary : nat)
      (report : Report) :
  Forall (fun found => found.2 < length source) functions ->
  (exists report',
      check_functions file_name undocumented source functions boundary report
      = Returns report')
  \/ check_functions file_name undocumented source functions boundary report
     = Raises (UnboundLocalError "ending_line_number").
Proof.
  revert boundary report.
  induction functions as [|[function_name line_number] rest IH];
    intros boundary report Hrange.
  - left. now eexists.
  - inversion Hrange as [|? ? Hline Hrest]; subst. simpl in Hline. simpl.
    destruct (check_function_outcome boundary report function_name line_number)
      as [[report' H]|H]; [lia| |]; rewrite H.
    + now apply IH.
    + now right.
Qed.

(** Once the lines are read, [check_file] returns its report or fails
    with the [UnboundLocalError] of [find_docs]. *)
Lemma check_file_lines_outcome :
  (exists report, check_file source file_name undocumented = Returns report)
  \/ check_file source file_name undocumented
     = Raises (UnboundLocalError "ending_line_number").
Proof.
  unfold check_file. apply check_functions_outcome.
  pose proof (find_functions_from_spec 0 source) as Hspec.
  apply Forall_forall. intros [name i] Hin.
  apply Hspec in Hin as (_ & line & Hline & _).
  rewrite Nat.sub_0_r in Hline. exact (lookup_lt_Some _ _ _ Hline).
Qed.

Lemma check_function_report (boundary : nat) (report report' : Report)
      (function_name : string) (line_number : nat) :
  check_function file_name undocumented source boundary report function_name line_number
  = Returns report' ->
  file_functions report' = {[ (file_name, function_name) ]} ∪ file_functions report
  /\ (file_num_doc_lines report' = file_num_doc_lines report
      \/ (boundary < line_number
          /\ file_num_doc_lines report'
             <= file_num_doc_lines report + (line_number - 1 - boundary)))
  /\ (undocumented = ∅ ->
      falsely_undoc_functions report' = falsely_undoc_functions report).
Proof.
  unfold check_function.
  destruct (find_docs line_number boundary source) as [docs|e] eqn:Hdocs; [|discriminate].
  destruct (find_docs_length line_number boundary docs Hdocs) as [->|[Hlt Hlen]].
  - intros [= <-]. simpl. split; [reflexivity|split; [now left|reflexivity]].
  - destruct docs as [|line docs].
    + intros [= <-]. simpl. split; [reflexivity|split; [now left|reflexivity]].
    + intros [= <-]. simpl. split; [reflexivity|split].
      * right. split; [exact Hlt|]. simpl in Hlen. lia.
      * intros ->. rewrite bool_decide_eq_false_2; [reflexivity|]. set_solver.
Qed.

Lemma last_cons_default {A : Type} (x d : A) (l : list A) :
  List.last (x :: l) d = List.last l x.
Proof.
  revert x d. induction l as [|y l IH]; intros x d; [reflexivity|].
  change (List.last (x :: y :: l) d) with (List.last (y :: l) d).
  rewrite (IH y d). symmetry. apply IH.
Qed.

Lemma last_elem_of {A : Type} (x d : A) (l : list A) : List.last (x :: l) d ∈ x :: l.
Proof.
  revert x. induction l as [|y l IH]; intros x.
  - simpl. now left.
  - right. apply IH.
Qed.

Lemma check_functions_report (functions : list (string * nat)) (boundary : nat)
      (report final : Report) :
  StronglySorted lt (snd <$> functions) ->
  Forall (fun found => boundary <= found.2) functions ->
  file_num_doc_lines report <= boundary ->
  check_functions file_name undocumented source functions boundary report
  = Returns final ->
  file_functions final
  = list_to_set ((fun found => (file_name, found.1)) <$> functions)
    ∪ file_functions report
  /\ file_num_doc_lines final <= List.last (snd <$> functions) boundary
  /\ (undocumented = ∅ ->
      falsely_undoc_functions final = falsely_undoc_functions report).
Proof.
  revert boundary report.
  induction functions as [|[function_name line_number] rest IH];
    intros boundary report Hsorted Hbound Htotal Hrun.
  - simpl in Hrun. injection Hrun as <-. simpl.
    split; [set_solver|split; [exact Htotal|reflexivity]].
  - simpl in Hrun.
    destruct (check_function file_name undocumented source boundary report
                             function_name line_number) as [report'|e] eqn:Hstep;
      [|discriminate Hrun].
    destruct (check_function_report boundary report report' function_name line_number
                                    Hstep) as (Hfunctions & Hlines & Hfalsely).
    inversion Hsorted as [|? ? Hsorted' Hgreater]; subst.
    inversion Hbound as [|? ? Hfirst Hothers]; subst. simpl in Hfirst.
    destruct (IH line_number report' Hsorted') as (Hfinal & Hcount & Hfalse);
      [|lia|exact Hrun|].
    { apply Forall_forall. intros [name i] Hin. simpl.
      rewrite Forall_forall in Hgreater.
      assert (line_number < i); [|lia].
      apply Hgreater. apply list_elem_of_fmap.
      exists (name, i). split; [reflexivity|exact Hin]. }
    split; [|split].
    + rewrite Hfinal, Hfunctions. rewrite fmap_cons. simpl. set_solver.
    + rewrite fmap_cons. cbn [snd]. rewrite last_cons_default. exact Hcount.
    + intros Hnone. now rewrite (Hfalse Hnone), (Hfalsely Hnone).
Qed.

(** X24. The report of [check_file] names every function of the file, and
    counts no more documentation lines than the file has lines before its
    last function: the comments found for different functions do not
    overlap. *)
Theorem check_file_report (report : Report) :
  check_file source file_name undocumented = Returns report ->
  file_functions report
  = list_to_set ((fun found => (file_name, found.1)) <$> find_functions source)
  /\ file_num_doc_lines report <= List.last (snd <$> find_functions source) 0
  /\ file_num_doc_lines report <= length source.
Proof.
  intros Hrun. unfold check_file in Hrun.
  destruct (find_functions_from_sorted 0 source) as [Hsorted Hbound].
  destruct (check_functions_report (find_functions source) 0 (mkReport ∅ ∅ ∅ 0 []) report)
    as (Hfunctions & Hcount & _); [exact Hsorted| |reflexivity|exact Hrun|].
  { apply Forall_forall. intros found _. lia. }
  split; [|split; [exact Hcount|]].
  - rewrite Hfunctions. simpl. set_solver.
  - etrans; [exact Hcount|].
    assert (Hin : Forall (fun i => i < length source) (snd <$> find_functions source)).
    { apply Forall_forall. intros i Hi. apply list_elem_of_fmap in Hi as ([name i'] & -> & Hi).
      apply (find_functions_from_spec 0 source) in Hi as (_ & line & Hline & _).
      rewrite Nat.sub_0_r in Hline. exact (lookup_lt_Some _ _ _ Hline). }
    destruct (snd <$> find_functions source) as [|i others] eqn:Hlist; [simpl; lia|].
    rewrite Forall_forall in Hin.
    specialize (Hin _ (last_elem_of i 0 others)). lia.
Qed.

End whole_file.

(** X23. [check_file] fails in two ways only.  When the file cannot be
    opened or read it fails with the [IOError] of [open], before it
    looks for any function.  When the file is read it never indexes
    outside of it, as the lines of the functions it looks above all lie
    within the source: it returns its report, or fails with the
    [UnboundLocalError] of [find_docs]. *)
Theorem check_file_outcome (files : LintYuidoc.Files) (file_name : string)
        (undocumented : gset (string * string)) :
  (files !! file_name = None
   /\ LintYuidoc.check_file_on files file_name undocumented
      = Py.Raises (Py.IOError file_name))
  \/ (exists source : list string,
         files !! file_name = Some source
         /\ LintYuidoc.check_file_on files file_name undocumented
            = LintYuidoc.check_file source file_name undocumented
         /\ ((exists report,
                 LintYuidoc.check_file_on files file_name undocumented
                 = Py.Returns report)
             \/ LintYuidoc.check_file_on files file_name undocumented
                = Py.Raises (Py.UnboundLocalError "ending_line_number"))).
Proof.
  unfold LintYuidoc.check_file_on, LintYuidoc.readlines.
  destruct (files !! file_name) as [source|]; [right|now left].
  exists source. split; [reflexivity|split; [reflexivity|]].
  apply check_file_lines_outcome.
Qed.

(** X25. Without a listing, as when the listing is being generated, no
    function is ever reported as listed by mistake: the set
    [falsely_undoc_functions], the only one the linter prints in that mode
    besides the missing ones, is empty. *)
Theorem check_file_without_listing (source : list string) (file_name : string)
        (report : LintYuidoc.Report) :
  LintYuidoc.check_file source file_name ∅ = Py.Returns report ->
  LintYuidoc.falsely_undoc_functions report = ∅.
Proof.
  intros Hrun. unfold LintYuidoc.check_file in Hrun.
  destruct (find_functions_from_sorted 0 source) as [Hsorted Hbound].
  destruct (check_functions_report source file_name ∅ (LintYuidoc.find_functions source) 0
                                   (LintYuidoc.mkReport ∅ ∅ ∅ 0 []) report)
    as (_ & _ & Hfalsely); [exact Hsorted| |reflexivity|exact Hrun|].
  { apply Forall_forall. intros found _. lia. }
  exact (Hfalsely eq_refl).
Qed.

Lemma check_file_report_witness :
  LintYuidoc.check_file LintTests.source "terms.js" ∅ = Py.Returns LintTests.report
  /\ LintYuidoc.file_functions LintTests.report
     = list_to_set ((fun found => ("terms.js", found.1))
                      <$> LintYuidoc.find_functions LintTests.source)
  /\ LintYuidoc.file_num_doc_lines LintTests.report <= length LintTests.source.
Proof.
  assert (Hrun : LintYuidoc.check_file LintTests.source "terms.js" ∅
                 = Py.Returns LintTests.report) by (vm_compute; reflexivity).
  split; [exact Hrun|].
  destruct (check_file_report LintTests.source "terms.js" ∅ LintTests.report Hrun)
    as (Hfunctions & _ & Hcount).
  split; [exact Hfunctions|exact Hcount].
Defined.

Lemma check_file_without_listing_witness :
  LintYuidoc.check_file LintTests.source "terms.js" ∅ = Py.Returns LintTests.report
  /\ LintYuidoc.falsely_undoc_functions LintTests.report = ∅.
Proof.
  assert (Hrun : LintYuidoc.check_file LintTests.source "terms.js" ∅
                 = Py.Returns LintTests.report) by (vm_compute; reflexivity).
  split; [exact Hrun|].
  exact (check_file_without_listing LintTests.source "terms.js" LintTests.report Hrun).
Defined.
